(** * beaconclient: the production beacon-node client

    A shallow embedding of [beaconclient/prod_beacon_instance.go]: the
    head-event subscription loop, the validator-set snapshot builder and the
    typed endpoint accessors, together with the properties the specification
    states about them.

    Conventions.
    - A Go [uint64] is an [N]; the code performs no arithmetic on slots, so
      the only place the 64-bit bound matters is [strconv.ParseUint].
    - A Go [string] / [[]byte] is a [string] (a list of bytes).
    - A pointer result is an [option]: [None] is [nil].
    - A Go [error] result is an [option error]: [None] is [nil]. *)

From Stdlib Require Import NArith ZArith Ascii String.
From Stdlib Require Import DecimalString DecimalPos DecimalN.
From stdpp Require Import base option list strings gmap.

Local Open Scope string_scope.

#[local] Set Warnings "-register-all".

(** ** Errors *)

(** The error values that can reach the code of this file.  The first three
    are the ones [encoding/json] produces; [ErrorString] stands for any other
    error (from the SSE client or from the HTTP layer). *)
Inductive error : Type :=
  | SyntaxError
  | UnmarshalTypeError (value : string) (type : string)
  | InvalidStringTag (type : string)
  | ErrorString (msg : string).

#[global] Instance error_eq_dec : EqDecision error.
Proof. solve_decision. Defined.

(** ** strconv *)

Module strconv.

Definition maxUint64 : N := 18446744073709551615.

(** [strconv.ParseUint(s, 10, 64)]: one or more decimal digits, no sign, no
    underscore, value at most [maxUint64]. *)
Definition ParseUint (s : string) : option N :=
  match NilZero.uint_of_string s with
  | Some d => let n := N.of_uint d in
              if (n <=? maxUint64)%N then Some n else None
  | None => None
  end.

(** The [%d] verb of [fmt.Sprintf] on an unsigned integer. *)
Definition FormatUint (n : N) : string :=
  NilZero.string_of_uint (N.to_uint n).

End strconv.

(** ** encoding/json

    The part of [encoding/json] that [json.Unmarshal] runs when the
    destination is one of the flat structs of this file: the scanner (is the
    input one well-formed JSON value?), string unquoting, and the
    field-by-field store that the struct tags select. *)

Module json.

Inductive value : Type :=
  | Null
  | Bool (b : bool)
  | Number (literal : string)
  | Str (s : string)
  | Array (elems : list value)
  | Object (members : list (string * value)).

(** *** Bytes *)

Definition code (c : ascii) : N := N_of_ascii c.

Definition between (lo hi : N) (c : ascii) : bool :=
  ((lo <=? code c) && (code c <=? hi))%N.

Definition is_space (c : ascii) : bool :=
  bool_decide (c = " "%char) || bool_decide (code c = 9%N)
  || bool_decide (code c = 13%N) || bool_decide (code c = 10%N).

Definition is_digit (c : ascii) : bool := between 48 57 c.

Definition is_hex (c : ascii) : bool :=
  is_digit c || between 97 102 c || between 65 70 c.

Definition hex_val (c : ascii) : N :=
  if is_digit c then code c - 48
  else if between 97 102 c then code c - 87
  else code c - 55.

(** *** Tokens *)

Inductive token : Type :=
  | TBeginObject | TEndObject | TBeginArray | TEndArray | TColon | TComma
  | TString (raw : string)       (* the bytes between the quotes, still escaped *)
  | TLiteral (text : string).    (* a number, [true], [false] or [null] *)

(** Where the scanner is inside a string literal. *)
Inductive in_string : Type :=
  | Plain
  | Escape              (* just after a backslash *)
  | Unicode (left : nat) (* inside [\uXXXX], [left] hex digits to go *).

Inductive lex_state : Type :=
  | Idle
  | InString (acc : string) (e : in_string)
  | InLiteral (acc : string).

(** Bytes that can occur in a number or in [true], [false], [null]. *)
Definition is_literal_byte (c : ascii) : bool :=
  is_digit c || between 97 122 c || between 65 90 c
  || bool_decide (c = "-"%char) || bool_decide (c = "+"%char)
  || bool_decide (c = "."%char).

Definition snoc (s : string) (c : ascii) : string := s ++ String c "".

(** One byte seen outside any literal. *)
Definition lex_idle (c : ascii) : option (lex_state * list token) :=
  if is_space c then Some (Idle, [])
  else if bool_decide (c = "{"%char) then Some (Idle, [TBeginObject])
  else if bool_decide (c = "}"%char) then Some (Idle, [TEndObject])
  else if bool_decide (c = "["%char) then Some (Idle, [TBeginArray])
  else if bool_decide (c = "]"%char) then Some (Idle, [TEndArray])
  else if bool_decide (c = ":"%char) then Some (Idle, [TColon])
  else if bool_decide (c = ","%char) then Some (Idle, [TComma])
  else if bool_decide (code c = 34%N) then Some (InString "" Plain, [])
  else if is_literal_byte c then Some (InLiteral (String c ""), [])
  else None.

Definition is_escapable (c : ascii) : bool :=
  bool_decide (code c = 34%N) || bool_decide (code c = 92%N)
  || bool_decide (c = "/"%char) || bool_decide (c = "b"%char)
  || bool_decide (c = "f"%char) || bool_decide (c = "n"%char)
  || bool_decide (c = "r"%char) || bool_decide (c = "t"%char).

Definition lex_step (st : lex_state) (c : ascii)
  : option (lex_state * list token) :=
  match st with
  | Idle => lex_idle c
  | InLiteral acc =>
      if is_literal_byte c then Some (InLiteral (snoc acc c), [])
      else match lex_idle c with
           | Some (st', ts) => Some (st', TLiteral acc :: ts)
           | None => None
           end
  | InString acc Plain =>
      if bool_decide (code c = 34%N) then Some (Idle, [TString acc])
      else if bool_decide (code c = 92%N) then Some (InString (snoc acc c) Escape, [])
      else if (code c <? 32)%N then None
      else Some (InString (snoc acc c) Plain, [])
  | InString acc Escape =>
      if is_escapable c then Some (InString (snoc acc c) Plain, [])
      else if bool_decide (c = "u"%char) then Some (InString (snoc acc c) (Unicode 4), [])
      else None
  | InString acc (Unicode k) =>
      if is_hex c
      then Some (InString (snoc acc c) (match k with 1%nat => Plain | _ => Unicode (pred k) end), [])
      else None
  end.

Fixpoint lex (st : lex_state) (s : string) : option (list token) :=
  match s with
  | "" => match st with
          | Idle => Some []
          | InLiteral acc => Some [TLiteral acc]
          | InString _ _ => None
          end
  | String c s' =>
      match lex_step st c with
      | Some (st', ts) => app ts <$> lex st' s'
      | None => None
      end
  end.

(** *** Literals *)

Fixpoint drop_digits (s : string) : string :=
  match s with
  | String c s' => if is_digit c then drop_digits s' else s
  | "" => ""
  end.

Definition starts_with_digit (s : string) : bool :=
  match s with String c _ => is_digit c | "" => false end.

Definition valid_exponent (s : string) : bool :=
  match s with
  | "" => true
  | String c r =>
      if bool_decide (c = "e"%char) || bool_decide (c = "E"%char) then
        let r' := match r with
                  | String sg r2 =>
                      if bool_decide (sg = "+"%char) || bool_decide (sg = "-"%char)
                      then r2 else r
                  | "" => r
                  end in
        starts_with_digit r' && bool_decide (drop_digits r' = "")
      else false
  end.

Definition valid_fraction (s : string) : bool :=
  match s with
  | String c r =>
      if bool_decide (c = "."%char)
      then starts_with_digit r && valid_exponent (drop_digits r)
      else valid_exponent s
  | "" => true
  end.

(** The JSON number grammar. *)
Definition valid_number (s : string) : bool :=
  let s1 := match s with
            | String c r => if bool_decide (c = "-"%char) then r else s
            | "" => s
            end in
  match s1 with
  | String c r =>
      if bool_decide (c = "0"%char) then valid_fraction r
      else if between 49 57 c then valid_fraction (drop_digits r)
      else false
  | "" => false
  end.

Definition literal_value (text : string) : option value :=
  if bool_decide (text = "null") then Some Null
  else if bool_decide (text = "true") then Some (Bool true)
  else if bool_decide (text = "false") then Some (Bool false)
  else if valid_number text then Some (Number text)
  else None.

(** *** Unquoting *)

Fixpoint skip (n : nat) (s : string) : string :=
  match n, s with
  | S n', String _ s' => skip n' s'
  | _, _ => s
  end.

Fixpoint take (n : nat) (s : string) : string :=
  match n, s with
  | S n', String c s' => String c (take n' s')
  | _, _ => ""
  end.

Definition byte (n : N) : ascii := ascii_of_N n.
Arguments byte n%_N.

(** U+FFFD in UTF-8. *)
Definition replacement : string :=
  String (byte 239) (String (byte 191) (String (byte 189) "")).

(** A UTF-8 continuation byte carrying the low six bits of [x]. *)
Definition cont_byte (x : N) : ascii := byte (128 + x mod 64).
Arguments cont_byte x%_N.

(** [utf8.EncodeRune] for a rune that is a Unicode scalar value. *)
Definition EncodeRune (r : N) : string :=
  if (r <? 128)%N then String (byte r) ""
  else if (r <? 2048)%N then String (byte (192 + r / 64)) (String (cont_byte r) "")
  else if (r <? 65536)%N then
    String (byte (224 + r / 4096))
      (String (cont_byte (r / 64)) (String (cont_byte r) ""))
  else
    String (byte (240 + r / 262144))
      (String (cont_byte (r / 4096))
         (String (cont_byte (r / 64)) (String (cont_byte r) ""))).

Definition is_cont (c : ascii) : bool := between 128 191 c.

(** The length of the well-formed UTF-8 sequence at the head of [s]
    ([utf8.DecodeRune]'s size), or 0 when [s] does not start with one. *)
Definition utf8_len (s : string) : nat :=
  match s with
  | String b0 (String b1 r1) =>
      if between 194 223 b0 then (if is_cont b1 then 2 else 0)%nat
      else if between 224 239 b0 then
        let ok1 := if bool_decide (code b0 = 224%N) then between 160 191 b1
                   else if bool_decide (code b0 = 237%N) then between 128 159 b1
                   else is_cont b1 in
        match r1 with
        | String b2 _ => if ok1 && is_cont b2 then 3%nat else 0%nat
        | "" => 0%nat
        end
      else if between 240 244 b0 then
        let ok1 := if bool_decide (code b0 = 240%N) then between 144 191 b1
                   else if bool_decide (code b0 = 244%N) then between 128 143 b1
                   else is_cont b1 in
        match r1 with
        | String b2 (String b3 _) =>
            if ok1 && is_cont b2 && is_cont b3 then 4%nat else 0%nat
        | _ => 0%nat
        end
      else 0%nat
  | _ => 0%nat
  end.

(** [getu4]: the code unit of a [\uXXXX] at the head of [s]. *)
Definition getu4 (s : string) : option N :=
  match s with
  | String bs (String u (String a (String b (String c (String d _))))) =>
      if bool_decide (code bs = 92%N) && bool_decide (u = "u"%char)
         && is_hex a && is_hex b && is_hex c && is_hex d
      then Some (((hex_val a * 16 + hex_val b) * 16 + hex_val c) * 16 + hex_val d)%N
      else None
  | _ => None
  end.

Definition escape_byte (e : ascii) : option ascii :=
  if bool_decide (code e = 34%N) || bool_decide (code e = 92%N)
     || bool_decide (e = "/"%char) then Some e
  else if bool_decide (e = "b"%char) then Some (byte 8)
  else if bool_decide (e = "f"%char) then Some (byte 12)
  else if bool_decide (e = "n"%char) then Some (byte 10)
  else if bool_decide (e = "r"%char) then Some (byte 13)
  else if bool_decide (e = "t"%char) then Some (byte 9)
  else None.

(** [unquote] on the bytes between the quotes.  Every round consumes at least
    one byte, so [String.length s] rounds are enough. *)
Fixpoint unquote_go (rounds : nat) (s : string) : option string :=
  match s with
  | "" => Some ""
  | String c r =>
      match rounds with
      | O => None
      | S k =>
          if bool_decide (code c = 92%N) then
            match r with
            | "" => None
            | String e r' =>
                if bool_decide (e = "u"%char) then
                  match getu4 s with
                  | None => None
                  | Some rr =>
                      let after := skip 4 r' in
                      if ((55296 <=? rr) && (rr <? 57344))%N then
                        match getu4 after with
                        | Some rr1 =>
                            if ((rr <? 56320) && (56320 <=? rr1) && (rr1 <? 57344))%N
                            then String.append (EncodeRune ((rr - 55296) * 1024 + (rr1 - 56320) + 65536)%N)
                                   <$> unquote_go k (skip 6 after)
                            else String.append replacement <$> unquote_go k after
                        | None => String.append replacement <$> unquote_go k after
                        end
                      else String.append (EncodeRune rr) <$> unquote_go k after
                  end
                else
                  match escape_byte e with
                  | Some b => String b <$> unquote_go k r'
                  | None => None
                  end
            end
          else if bool_decide (code c = 34%N) || (code c <? 32)%N then None
          else if (code c <? 128)%N then String c <$> unquote_go k r
          else
            match utf8_len s with
            | O => String.append replacement <$> unquote_go k r
            | n => String.append (take n s) <$> unquote_go k (skip n s)
            end
      end
  end.

Definition unquote (s : string) : option string :=
  unquote_go (String.length s) s.

(** [unquoteBytes]: a whole quoted literal, quotes included. *)
Definition unquoteBytes (s : string) : option string :=
  match s with
  | String q r =>
      let n := String.length r in
      if bool_decide (code q = 34%N) && bool_decide (skip (pred n) r = String q "")
      then unquote (take (pred n) r) else None
  | "" => None
  end.

(** *** The parser

    A pushdown automaton over the tokens, as the scanner's [parseState]
    stack: one frame per open array or object. *)

Inductive frame : Type :=
  | InArray (elems : list value)          (* newest first *)
  | InObject (members : list (string * value)) (key : option string).

Inductive expect : Type :=
  | ExpValue (may_close : bool)  (* a value; [may_close]: or the end of an empty array *)
  | ExpKey (may_close : bool)    (* a key; [may_close]: or the end of an empty object *)
  | ExpColon
  | ExpNext                      (* a comma, or the end of the enclosing container *)
  | Done (v : value).

Definition maxNestingDepth : N := 10000.

(** Pushing one more frame would exceed [maxNestingDepth]. *)
Definition too_deep (stack : list frame) : bool :=
  (maxNestingDepth <? N.of_nat (S (length stack)))%N.

(** A value is complete: store it in the enclosing container. *)
Definition close_value (v : value) (stack : list frame)
  : option (list frame * expect) :=
  match stack with
  | [] => Some ([], Done v)
  | InArray els :: st => Some (InArray (v :: els) :: st, ExpNext)
  | InObject ms (Some k) :: st => Some (InObject ((k, v) :: ms) None :: st, ExpNext)
  | InObject _ None :: _ => None
  end.

Definition parse_step (stack : list frame) (e : expect) (t : token)
  : option (list frame * expect) :=
  match e, t with
  | ExpValue _, TBeginObject =>
      if too_deep stack then None else Some (InObject [] None :: stack, ExpKey true)
  | ExpValue _, TBeginArray =>
      if too_deep stack then None else Some (InArray [] :: stack, ExpValue true)
  | ExpValue _, TString raw => s ← unquote raw; close_value (Str s) stack
  | ExpValue _, TLiteral text => v ← literal_value text; close_value v stack
  | ExpValue true, TEndArray =>
      match stack with
      | InArray _ :: st => close_value (Array []) st
      | _ => None
      end
  | ExpKey true, TEndObject =>
      match stack with
      | InObject _ _ :: st => close_value (Object []) st
      | _ => None
      end
  | ExpKey _, TString raw =>
      match stack with
      | InObject ms _ :: st => k ← unquote raw; Some (InObject ms (Some k) :: st, ExpColon)
      | _ => None
      end
  | ExpColon, TColon => Some (stack, ExpValue false)
  | ExpNext, TComma =>
      match stack with
      | InArray _ :: _ => Some (stack, ExpValue false)
      | InObject _ _ :: _ => Some (stack, ExpKey false)
      | [] => None
      end
  | ExpNext, TEndArray =>
      match stack with
      | InArray els :: st => close_value (Array (reverse els)) st
      | _ => None
      end
  | ExpNext, TEndObject =>
      match stack with
      | InObject ms _ :: st => close_value (Object (reverse ms)) st
      | _ => None
      end
  | _, _ => None
  end.

Fixpoint parse_tokens (stack : list frame) (e : expect) (ts : list token)
  : option value :=
  match ts with
  | [] => match stack, e with
          | [], Done v => Some v
          | _, _ => None
          end
  | t :: ts' =>
      match parse_step stack e t with
      | Some (stack', e') => parse_tokens stack' e' ts'
      | None => None
      end
  end.

(** The whole input is one JSON value, surrounded by optional white space;
    [None] is a syntax error. *)
Definition parse (input : string) : option value :=
  ts ← lex Idle input; parse_tokens [] (ExpValue false) ts.

(** *** Storing into struct fields *)

(** What storing one JSON value does: the field's new contents, an error that
    is recorded ([saveError]) while decoding goes on, or an error that ends
    decoding at once. *)
Inductive outcome (A : Type) : Type :=
  | Stored (a : A)
  | Saved (e : error)
  | Failed (e : error).
Arguments Stored {A} a.
Arguments Saved {A} e.
Arguments Failed {A} e.

Definition outcome_map {A B} (f : A → B) (o : outcome A) : outcome B :=
  match o with
  | Stored a => Stored (f a)
  | Saved e => Saved e
  | Failed e => Failed e
  end.

(** A field of Go type [string]. *)
Definition store_string (v : value) (cur : string) : outcome string :=
  match v with
  | Str s => Stored s
  | Null => Stored cur
  | Bool _ => Saved (UnmarshalTypeError "bool" "string")
  | Number _ => Saved (UnmarshalTypeError "number" "string")
  | Array _ => Saved (UnmarshalTypeError "array" "string")
  | Object _ => Saved (UnmarshalTypeError "object" "string")
  end.

(** A field of Go type [uint64] tagged [,string]: the JSON value must be a
    string, and its contents are stored as a literal ([literalStore] with
    [fromQuoted]). *)
Definition store_uint64_quoted (v : value) (cur : N) : outcome N :=
  match v with
  | Null => Stored cur
  | Str item =>
      match item with
      | "" => Saved (InvalidStringTag "uint64")
      | String c _ =>
          if bool_decide (c = "n"%char) then
            if bool_decide (item = "null") then Stored cur
            else Saved (InvalidStringTag "uint64")
          else if bool_decide (c = "t"%char) || bool_decide (c = "f"%char) then
            Saved (InvalidStringTag "uint64")
          else if bool_decide (code c = 34%N) then
            match unquoteBytes item with
            | Some _ => Saved (UnmarshalTypeError "string" "uint64")
            | None => Failed (InvalidStringTag "uint64")
            end
          else if negb (bool_decide (c = "-"%char)) && negb (is_digit c) then
            Failed (InvalidStringTag "uint64")
          else
            match strconv.ParseUint item with
            | Some n => Stored n
            | None => Saved (UnmarshalTypeError ("number " ++ item) "uint64")
            end
      end
  | _ => Saved (InvalidStringTag "uint64")
  end.

(** Key matching.  A key selects the field whose name it equals, or else
    equals under case folding; folding identifies the ASCII letters with
    their other case, U+017F with [s] and U+212A with [k]. *)
Definition lower (c : ascii) : ascii :=
  if between 65 90 c then byte (code c + 32) else c.

Fixpoint fold_key (s : string) : string :=
  match s with
  | "" => ""
  | String a r =>
      match r with
      | String b r1 =>
          if bool_decide (code a = 197%N) && bool_decide (code b = 191%N)
          then String "s" (fold_key r1)
          else
            match r1 with
            | String c r2 =>
                if bool_decide (code a = 226%N) && bool_decide (code b = 132%N)
                   && bool_decide (code c = 170%N)
                then String "k" (fold_key r2)
                else String (lower a) (fold_key r)
            | "" => String (lower a) (fold_key r)
            end
      | "" => String (lower a) ""
      end
  end.

(** [name] is a lower-case ASCII field name. *)
Definition selects (name key : string) : bool :=
  bool_decide (key = name) || bool_decide (fold_key key = name).

(** The members of an object, in order, stored into a struct by [store]. *)
Fixpoint store_members {A} (store : A → string → value → outcome A)
    (ms : list (string * value)) (dst : A) (saved : option error)
  : A * option error :=
  match ms with
  | [] => (dst, saved)
  | (k, v) :: ms' =>
      match store dst k v with
      | Stored dst' => store_members store ms' dst' saved
      | Saved e => store_members store ms' dst (Some (default e saved))
      | Failed e => (dst, Some e)
      end
  end.

(** [json.Unmarshal(data, &dst)] for a struct [dst] of Go type [type]. *)
Definition Unmarshal {A} (type : string)
    (store : A → string → value → outcome A) (data : string) (dst : A)
  : A * option error :=
  match parse data with
  | None => (dst, Some SyntaxError)
  | Some (Object ms) => store_members store ms dst None
  | Some Null => (dst, None)
  | Some (Bool _) => (dst, Some (UnmarshalTypeError "bool" type))
  | Some (Number _) => (dst, Some (UnmarshalTypeError "number" type))
  | Some (Str _) => (dst, Some (UnmarshalTypeError "string" type))
  | Some (Array _) => (dst, Some (UnmarshalTypeError "array" type))
  end.

(** [s] between double quotes. *)
Definition quoted (s : string) : string :=
  String (byte 34) (s ++ String (byte 34) "").

End json.

(* From here on [++] appends lists, and [+:+] strings. *)
Local Open Scope list_scope.

(** ** The [%s] and [%d] verbs of [fmt.Sprintf] *)

Inductive arg : Type :=
  | ArgString (s : string)
  | ArgUint (n : N).

Fixpoint Sprintf (format : string) (args : list arg) : string :=
  match format with
  | "" => ""
  | String c rest =>
      if bool_decide (c = "%"%char) then
        match rest, args with
        | String v rest', a :: args' =>
            match a with
            | ArgString s =>
                if bool_decide (v = "s"%char) then s +:+ Sprintf rest' args'
                else "%!" +:+ String v (Sprintf rest' args')
            | ArgUint n =>
                if bool_decide (v = "d"%char)
                then strconv.FormatUint n +:+ Sprintf rest' args'
                else "%!" +:+ String v (Sprintf rest' args')
            end
        | String v rest', [] => "%!" +:+ String v ("(MISSING)" +:+ Sprintf rest' [])
        | "", _ => "%!(NOVERB)"
        end
      else String c (Sprintf rest args)
  end.

(** ** The client *)

(** The logger of a [ProdBeaconInstance] is not a field here: what the code
    logs appears in the trace of actions below. *)
Record ProdBeaconInstance : Type := { beaconURI : string }.

(** ** Head events *)

Record HeadEventData : Type := {
  Slot : N;        (* `json:"slot,string"` *)
  Block : string;  (* `json:"block"` *)
  State : string;  (* `json:"state"` *)
}.

#[global] Instance HeadEventData_eq_dec : EqDecision HeadEventData.
Proof. solve_decision. Defined.

(** [var data HeadEventData] *)
Definition HeadEventData_zero : HeadEventData :=
  {| Slot := 0; Block := ""; State := "" |}.

(** What the struct tags of [HeadEventData] make of one object member. *)
Definition store_HeadEventData (d : HeadEventData) (key : string) (v : json.value)
  : json.outcome HeadEventData :=
  if json.selects "slot" key then
    json.outcome_map (λ n, {| Slot := n; Block := Block d; State := State d |})
      (json.store_uint64_quoted v (Slot d))
  else if json.selects "block" key then
    json.outcome_map (λ s, {| Slot := Slot d; Block := s; State := State d |})
      (json.store_string v (Block d))
  else if json.selects "state" key then
    json.outcome_map (λ s, {| Slot := Slot d; Block := Block d; State := s |})
      (json.store_string v (State d))
  else json.Stored d.

(** [json.Unmarshal(msg.Data, &data)] *)
Definition Unmarshal_HeadEventData (data : string) (dst : HeadEventData)
  : HeadEventData * option error :=
  json.Unmarshal "beaconclient.HeadEventData" store_HeadEventData data dst.

(** An event of the SSE client; the handler reads its [Data] only. *)
Record Event : Type := { Data : string }.

(** What [SubscribeToHeadEvents] does that can be seen from outside. *)
Inductive action : Type :=
  | LogInfo (msg : string)
  | LogWarn (msg : string)
  | LogError (msg : string) (err : error)
  | Subscribe (url : string)        (* [sse.NewClient(url)] and the call of [SubscribeRaw] *)
  | Send (data : HeadEventData)     (* [slotC <- data], received by the consumer *)
  | Sleep (nanoseconds : Z).        (* [time.Sleep] *)

#[global] Instance action_eq_dec : EqDecision action.
Proof. solve_decision. Defined.

(** [time.Second] *)
Definition Second : Z := 1000000000.

(** The callback passed to [SubscribeRaw]. *)
Definition handler (msg : Event) : list action :=
  let data := HeadEventData_zero in
  match Unmarshal_HeadEventData (Data msg) data with
  | (_, Some err) => [LogError "could not unmarshal head event" err]
  | (data, None) => [Send data]
  end.

(** One call of [client.SubscribeRaw], as the upstream decides it: the events
    the client receives while connected, each handed to the callback in the
    order received, and then the value the call returns ([None] when the
    stream ended without an error). *)
Record session : Type := { events : list Event; result : option error }.

Definition SubscribeRaw (s : session) (callback : Event → list action)
  : list action * option error :=
  (flat_map callback (events s), result s).

(** How the body of a [for] loop ends. *)
Inductive control : Type := Continue | Return.

(** Whether a function is still executing or has returned. *)
Inductive status : Type := Running | Returned.

(** [for { body }], run against what the upstream does in each round. *)
Fixpoint forever (body : session → list action * control)
    (upstream : list session) : list action * status :=
  match upstream with
  | [] => ([], Running)
  | s :: rest =>
      match body s with
      | (tr, Return) => (tr, Returned)
      | (tr, Continue) =>
          let '(tr', st) := forever body rest in (tr ++ tr', st)
      end
  end.

Definition eventsURL (c : ProdBeaconInstance) : string :=
  Sprintf "%s/eth/v1/events?topics=head" [ArgString (beaconURI c)].

(** What the loop does once [SubscribeRaw] has returned [err], up to the end
    of the round. *)
Definition reconnect (err : option error) : list action :=
  match err with
  | Some e => [LogError "failed to subscribe to head events" e; Sleep (1 * Second)]
  | None => []
  end ++ [LogWarn "beaconclient SubscribeRaw ended, reconnecting"].

(** The body of the loop of [SubscribeToHeadEvents]. *)
Definition round (c : ProdBeaconInstance) (s : session)
  : list action * control :=
  let '(delivered, err) := SubscribeRaw s handler in
  (Subscribe (eventsURL c) :: delivered ++ reconnect err, Continue).

(** The rounds of the loop, one per session of the upstream. *)
Definition rounds (c : ProdBeaconInstance) (upstream : list session)
  : list action :=
  flat_map (λ s, (round c s).1) upstream.

Definition SubscribeToHeadEvents (c : ProdBeaconInstance)
    (upstream : list session) : list action * status :=
  let '(tr, st) := forever (round c) upstream in
  (LogInfo "subscribing to head events" :: tr, st).

(** *** Observations on a trace *)

(** The values the consumer of [slotC] receives, in order. *)
Definition sent (tr : list action) : list HeadEventData :=
  omap (λ a, match a with Send d => Some d | _ => None end) tr.

(** The URLs of the connection attempts, in order. *)
Definition subscriptions (tr : list action) : list string :=
  omap (λ a, match a with Subscribe url => Some url | _ => None end) tr.

(** The number of connection attempts. *)
Definition attempts (tr : list action) : nat := length (subscriptions tr).



(** What the consumer receives for one event: the decoded event, if the
    event decodes. *)
Definition decoded (msg : Event) : option HeadEventData :=
  match Unmarshal_HeadEventData (Data msg) HeadEventData_zero with
  | (d, None) => Some d
  | (_, Some _) => None
  end.


(** ** Endpoint accessors *)

(** [strings.ToLower].  An all-ASCII string is lower-cased byte by byte; for
    any other string Go maps [unicode.ToLower] over its runes, which is the
    parameter [unicode_lower] here. *)
Fixpoint all_ascii (s : string) : bool :=
  match s with
  | "" => true
  | String c s' => (json.code c <? 128)%N && all_ascii s'
  end.

Fixpoint map_bytes (f : ascii → ascii) (s : string) : string :=
  match s with
  | "" => ""
  | String c s' => String (f c) (map_bytes f s')
  end.

Definition ToLower (unicode_lower : string → string) (s : string) : string :=
  if all_ascii s then map_bytes json.lower s else unicode_lower s.

(** [http.MethodGet] *)
Definition MethodGet : string := "GET".

Record ValidatorResponseValidatorData : Type := {
  Pubkey : string;                              (* `json:"pubkey"` *)
}.

Record ValidatorResponseEntry : Type := {
  Index : N;                                    (* `json:"index,string"` *)
  Balance : string;                             (* `json:"balance"` *)
  Status : string;                              (* `json:"status"` *)
  Validator : ValidatorResponseValidatorData;   (* `json:"validator"` *)
}.

Record AllValidatorsResponse : Type := {
  AllValidators_Data : list ValidatorResponseEntry;
}.

Record SyncStatusPayloadData : Type := {
  HeadSlot : N;                                 (* `json:"head_slot,string"` *)
  IsSyncing : bool;                             (* `json:"is_syncing"` *)
}.

Record SyncStatusPayload : Type := { SyncStatus_Data : SyncStatusPayloadData }.

Record ProposerDutiesResponseData : Type := {
  Duty_Pubkey : string;                         (* `json:"pubkey"` *)
  Duty_Slot : N;                                (* `json:"slot,string"` *)
}.

Record ProposerDutiesResponse : Type := {
  ProposerDuties_Data : list ProposerDutiesResponseData;
}.

Record GetHeaderResponseMessage : Type := {
  Header_Slot : N;                              (* `json:"slot,string"` *)
  ProposerIndex : N;                            (* `json:"proposer_index,string"` *)
  ParentRoot : string;                          (* `json:"parent_root"` *)
}.

Record GetHeaderResponse : Type := {
  Header_Root : string;                                  (* [Data.Root] *)
  Header_Message : option GetHeaderResponseMessage;      (* [Data.Header.Message], a pointer *)
}.

Record GetGenesisResponse : Type := {
  GenesisTime : N;                              (* `json:"genesis_time,string"` *)
  GenesisValidatorsRoot : string;
  GenesisForkVersion : string;
}.

Record GetSpecResponse : Type := {
  SecondsPerSlot : N;                           (* `json:"SECONDS_PER_SLOT,string"` *)
  DepositContractAddress : string;
  DepositNetworkID : string;
  DomainAggregateAndProof : string;
  InactivityPenaltyQuotient : string;
  InactivityPenaltyQuotientAltair : string;
}.

Record ForkScheduleEntry : Type := {
  PreviousVersion : string;
  CurrentVersion : string;
  Epoch : N;                                    (* `json:"epoch,string"` *)
}.

Record GetForkScheduleResponse : Type := {
  ForkSchedule_Data : list ForkScheduleEntry;
}.

Record GetRandaoResponse : Type := { Randao : string }.

(** A request as [fetchBeacon] issues it; every accessor below passes a nil
    payload. *)
Record request : Type := { req_method : string; req_url : string }.

#[global] Instance request_eq_dec : EqDecision request.
Proof. solve_decision. Defined.

Section accessors.

(** [types.ExecutionPayload] of go-boost-utils and [capella.Withdrawal] of
    go-eth2-client: types of other packages, of which the accessors need a
    zero value at most. *)
Variable ExecutionPayload : Type.
Variable ExecutionPayload_zero : ExecutionPayload.
Variable Withdrawal : Type.

Record GetBlockResponse : Type := {
  Block_Slot : N;                               (* [Data.Message.Slot] *)
  Block_ExecutionPayload : ExecutionPayload;    (* [Data.Message.Body.ExecutionPayload] *)
}.

Record GetWithdrawalsResponse : Type := {
  Withdrawals : list (option Withdrawal);       (* [Data.Withdrawals], pointers *)
}.

(** The types a response is decoded into: the dynamic type of the [dst]
    argument of [fetchBeacon]. *)
Inductive response : Type :=
  | TAllValidatorsResponse | TSyncStatusPayload | TProposerDutiesResponse
  | TGetHeaderResponse | TGetBlockResponse | TGetGenesisResponse
  | TGetSpecResponse | TGetForkScheduleResponse | TGetRandaoResponse
  | TGetWithdrawalsResponse.

Definition dst (t : response) : Type :=
  match t with
  | TAllValidatorsResponse => AllValidatorsResponse
  | TSyncStatusPayload => SyncStatusPayload
  | TProposerDutiesResponse => ProposerDutiesResponse
  | TGetHeaderResponse => GetHeaderResponse
  | TGetBlockResponse => GetBlockResponse
  | TGetGenesisResponse => GetGenesisResponse
  | TGetSpecResponse => GetSpecResponse
  | TGetForkScheduleResponse => GetForkScheduleResponse
  | TGetRandaoResponse => GetRandaoResponse
  | TGetWithdrawalsResponse => GetWithdrawalsResponse
  end.

(** [new(T)]: a fresh value, all fields zero. *)
Definition new (t : response) : dst t :=
  match t with
  | TAllValidatorsResponse => {| AllValidators_Data := [] |}
  | TSyncStatusPayload =>
      {| SyncStatus_Data := {| HeadSlot := 0; IsSyncing := false |} |}
  | TProposerDutiesResponse => {| ProposerDuties_Data := [] |}
  | TGetHeaderResponse => {| Header_Root := ""; Header_Message := None |}
  | TGetBlockResponse =>
      {| Block_Slot := 0; Block_ExecutionPayload := ExecutionPayload_zero |}
  | TGetGenesisResponse =>
      {| GenesisTime := 0; GenesisValidatorsRoot := ""; GenesisForkVersion := "" |}
  | TGetSpecResponse =>
      {| SecondsPerSlot := 0; DepositContractAddress := ""; DepositNetworkID := "";
         DomainAggregateAndProof := ""; InactivityPenaltyQuotient := "";
         InactivityPenaltyQuotientAltair := "" |}
  | TGetForkScheduleResponse => {| ForkSchedule_Data := [] |}
  | TGetRandaoResponse => {| Randao := "" |}
  | TGetWithdrawalsResponse => {| Withdrawals := [] |}
  end.

(** The world outside the client: the network and the beacon node.  [serve]
    is what one request does to it and to the destination: the status code,
    the destination as the decoder left it, and the error. *)
Variable World : Type.
Variable serve :
  request → ∀ t : response, dst t → World → (Z * dst t * option error) * World.

(** [Map(unicode.ToLower, s)] for a string that is not all ASCII. *)
Variable unicode_lower : string → string.

(** The state an accessor runs in: the world, and the requests issued so far. *)
Record state : Type := { world : World; issued : list request }.

(** A computation that may issue requests, and that either returns or
    panics ([None]: a nil pointer is dereferenced). *)
Definition Beacon (A : Type) : Type := state → option (A * state).

Definition ret {A} (a : A) : Beacon A := λ σ, Some (a, σ).

Definition bind {A B} (m : Beacon A) (k : A → Beacon B) : Beacon B :=
  λ σ, match m σ with
       | Some (a, σ') => k a σ'
       | None => None
       end.

Definition panic {A} : Beacon A := λ _, None.

(** [*p] *)
Definition deref {A} (p : option A) : Beacon A :=
  match p with
  | Some a => ret a
  | None => panic
  end.

Notation "'let*' x := m 'in' k" := (bind m (λ x, k))
  (at level 10, x pattern, m at level 100, k at level 200).

(** Modelled from the spec: [fetchBeacon] of [beaconclient/util.go], which is
    not among the sources.  It performs the request, decodes the response
    into the destination when there is one, and returns the status code and
    the error; it does not retry.  What the request yields is the world's to
    decide ([serve]). *)
Definition fetchBeacon (method url : string) (t : response) (d : dst t)
  : Beacon (Z * dst t * option error) :=
  λ σ, let rq := {| req_method := method; req_url := url |} in
       let '(r, w) := serve rq t d (world σ) in
       Some (r, {| world := w; issued := issued σ ++ [rq] |}).

(** [types.NewPubkeyHex] of go-boost-utils. *)
Definition NewPubkeyHex (pk : string) : string := ToLower unicode_lower pk.

Definition fetchAllValidators (endpoint : string) (headSlot : N)
  : Beacon (option AllValidatorsResponse * option error) :=
  let uri := Sprintf "%s/eth/v1/beacon/states/%d/validators?status=active,pending"
               [ArgString endpoint; ArgUint headSlot] in
  let vd := new TAllValidatorsResponse in
  let* (_, vd, err) := fetchBeacon MethodGet uri TAllValidatorsResponse vd in
  ret (Some vd, err).

Definition FetchValidators (c : ProdBeaconInstance) (headSlot : N)
  : Beacon (option (gmap string ValidatorResponseEntry) * option error) :=
  let* (vd, err) := fetchAllValidators (beaconURI c) headSlot in
  match err with
  | Some e => ret (None, Some e)
  | None =>
      let* vd := deref vd in
      let newValidatorSet :=
        foldl (λ m vs, <[NewPubkeyHex (Pubkey (Validator vs)) := vs]> m)
          (∅ : gmap string ValidatorResponseEntry) (AllValidators_Data vd) in
      ret (Some newValidatorSet, None)
  end.

Definition SyncStatus (c : ProdBeaconInstance)
  : Beacon (option SyncStatusPayloadData * option error) :=
  let uri := beaconURI c +:+ "/eth/v1/node/syncing" in
  let resp := new TSyncStatusPayload in
  let* (_, resp, err) := fetchBeacon MethodGet uri TSyncStatusPayload resp in
  match err with
  | Some e => ret (None, Some e)
  | None => ret (Some (SyncStatus_Data resp), None)
  end.

Definition CurrentSlot (c : ProdBeaconInstance) : Beacon (N * option error) :=
  let* (syncStatus, err) := SyncStatus c in
  match err with
  | Some e => ret (0%N, Some e)
  | None =>
      let* syncStatus := deref syncStatus in
      ret (HeadSlot syncStatus, None)
  end.

Definition GetProposerDuties (c : ProdBeaconInstance) (epoch : N)
  : Beacon (option ProposerDutiesResponse * option error) :=
  let uri := Sprintf "%s/eth/v1/validator/duties/proposer/%d"
               [ArgString (beaconURI c); ArgUint epoch] in
  let resp := new TProposerDutiesResponse in
  let* (_, resp, err) := fetchBeacon MethodGet uri TProposerDutiesResponse resp in
  ret (Some resp, err).

Definition GetHeader (c : ProdBeaconInstance)
  : Beacon (option GetHeaderResponse * option error) :=
  let uri := Sprintf "%s/eth/v1/beacon/headers/head" [ArgString (beaconURI c)] in
  let resp := new TGetHeaderResponse in
  let* (_, resp, err) := fetchBeacon MethodGet uri TGetHeaderResponse resp in
  ret (Some resp, err).

Definition GetHeaderForSlot (c : ProdBeaconInstance) (slot : N)
  : Beacon (option GetHeaderResponse * option error) :=
  let uri := Sprintf "%s/eth/v1/beacon/headers/%d"
               [ArgString (beaconURI c); ArgUint slot] in
  let resp := new TGetHeaderResponse in
  let* (_, resp, err) := fetchBeacon MethodGet uri TGetHeaderResponse resp in
  ret (Some resp, err).

Definition GetBlock (c : ProdBeaconInstance) (blockID : string)
  : Beacon (option GetBlockResponse * option error) :=
  let uri := Sprintf "%s/eth/v2/beacon/blocks/%s"
               [ArgString (beaconURI c); ArgString blockID] in
  let resp := new TGetBlockResponse in
  let* (_, resp, err) := fetchBeacon MethodGet uri TGetBlockResponse resp in
  ret (Some resp, err).

Definition GetBlockForSlot (c : ProdBeaconInstance) (slot : N)
  : Beacon (option GetBlockResponse * option error) :=
  let uri := Sprintf "%s/eth/v2/beacon/blocks/%d"
               [ArgString (beaconURI c); ArgUint slot] in
  let resp := new TGetBlockResponse in
  let* (_, resp, err) := fetchBeacon MethodGet uri TGetBlockResponse resp in
  ret (Some resp, err).

Definition GetURI (c : ProdBeaconInstance) : string := beaconURI c.

Definition GetGenesis (c : ProdBeaconInstance)
  : Beacon (option GetGenesisResponse * option error) :=
  let uri := Sprintf "%s/eth/v1/beacon/genesis" [ArgString (beaconURI c)] in
  let resp := new TGetGenesisResponse in
  let* (_, resp, err) := fetchBeacon MethodGet uri TGetGenesisResponse resp in
  ret (Some resp, err).

Definition GetSpec (c : ProdBeaconInstance)
  : Beacon (option GetSpecResponse * option error) :=
  let uri := Sprintf "%s/eth/v1/config/spec" [ArgString (beaconURI c)] in
  let resp := new TGetSpecResponse in
  let* (_, resp, err) := fetchBeacon MethodGet uri TGetSpecResponse resp in
  ret (Some resp, err).

Definition GetForkSchedule (c : ProdBeaconInstance)
  : Beacon (option GetForkScheduleResponse * option error) :=
  let uri := Sprintf "%s/eth/v1/config/fork_schedule" [ArgString (beaconURI c)] in
  let resp := new TGetForkScheduleResponse in
  let* (_, resp, err) := fetchBeacon MethodGet uri TGetForkScheduleResponse resp in
  ret (Some resp, err).

Definition GetRandao (c : ProdBeaconInstance) (slot : N)
  : Beacon (option GetRandaoResponse * option error) :=
  let uri := Sprintf "%s/eth/v1/beacon/states/%d/randao"
               [ArgString (beaconURI c); ArgUint slot] in
  let resp := new TGetRandaoResponse in
  let* (_, resp, err) := fetchBeacon MethodGet uri TGetRandaoResponse resp in
  ret (Some resp, err).

Definition GetWithdrawals (c : ProdBeaconInstance) (slot : N)
  : Beacon (option GetWithdrawalsResponse * option error) :=
  let uri := Sprintf "%s/eth/v1/beacon/states/%d/withdrawals"
               [ArgString (beaconURI c); ArgUint slot] in
  let resp := new TGetWithdrawalsResponse in
  let* (_, resp, err) := fetchBeacon MethodGet uri TGetWithdrawalsResponse resp in
  ret (Some resp, err).

End accessors.

Arguments world {World} _.
Arguments issued {World} _.
Arguments Build_state {World} _ _.
Arguments ret {World A} _ _.
Arguments new {ExecutionPayload} _ {Withdrawal} _.
Arguments fetchBeacon {ExecutionPayload Withdrawal World} _ _ _ _ _ _.
Arguments fetchAllValidators {ExecutionPayload} _ {Withdrawal World} _ _ _ _.
Arguments FetchValidators {ExecutionPayload} _ {Withdrawal World} _ _ _ _ _.
Arguments SyncStatus {ExecutionPayload} _ {Withdrawal World} _ _ _.
Arguments CurrentSlot {ExecutionPayload} _ {Withdrawal World} _ _ _.
Arguments GetProposerDuties {ExecutionPayload} _ {Withdrawal World} _ _ _ _.
Arguments GetHeader {ExecutionPayload} _ {Withdrawal World} _ _ _.
Arguments GetHeaderForSlot {ExecutionPayload} _ {Withdrawal World} _ _ _ _.
Arguments GetBlock {ExecutionPayload} _ {Withdrawal World} _ _ _ _.
Arguments GetBlockForSlot {ExecutionPayload} _ {Withdrawal World} _ _ _ _.
Arguments GetGenesis {ExecutionPayload} _ {Withdrawal World} _ _ _.
Arguments GetSpec {ExecutionPayload} _ {Withdrawal World} _ _ _.
Arguments GetForkSchedule {ExecutionPayload} _ {Withdrawal World} _ _ _.
Arguments GetRandao {ExecutionPayload} _ {Withdrawal World} _ _ _ _.
Arguments GetWithdrawals {ExecutionPayload} _ {Withdrawal World} _ _ _ _.

(** *** What the accessors promise about their results *)

(** The call returns, and its first result is not nil, whatever the error. *)
Definition returns_non_nil {World A}
    (m : Beacon World (option A * option error)) (σ : state World) : Prop :=
  ∃ resp err σ', m σ = Some ((Some resp, err), σ').

(** The call returns; with an error its first result is nil, and without one
    it is not. *)
Definition returns_nil_on_error {World A}
    (m : Beacon World (option A * option error)) (σ : state World) : Prop :=
  ∃ r err σ', m σ = Some ((r, err), σ')
              ∧ match err with
                | Some _ => r = None
                | None => is_Some r
                end.

(** The request for the validators as of [headSlot]. *)
Definition validators_request (c : ProdBeaconInstance) (headSlot : N) : request :=
  {| req_method := "GET";
     req_url := beaconURI c +:+ "/eth/v1/beacon/states/"
                +:+ strconv.FormatUint headSlot
                +:+ "/validators?status=active,pending" |}.

(** The key of an entry in the validator set. *)
Definition validator_key (unicode_lower : string → string)
    (vs : ValidatorResponseEntry) : string :=
  NewPubkeyHex unicode_lower (Pubkey (Validator vs)).

(** The loop of [FetchValidators]: the entries, in order, inserted into the
    map under their keys. *)
Definition collect (unicode_lower : string → string)
    (entries : list ValidatorResponseEntry)
    (m : gmap string ValidatorResponseEntry) : gmap string ValidatorResponseEntry :=
  foldl (λ m vs, <[validator_key unicode_lower vs := vs]> m) m entries.

(** *** Two beacon nodes to run the accessors against *)

Definition validator (index : N) (pubkey : string) : ValidatorResponseEntry :=
  {| Index := index; Balance := "32000000000"; Status := "active_ongoing";
     Validator := {| Pubkey := pubkey |} |}.

(** A node in sync at slot 251114 that knows two validators. *)
Definition healthy_node (rq : request) (t : response)
  : dst unit unit t → unit → (Z * dst unit unit t * option error) * unit :=
  match t with
  | TAllValidatorsResponse => λ _ w,
      ((200%Z, {| AllValidators_Data := [validator 1 "0xAA"; validator 2 "0xBB"] |},
        None), w)
  | TSyncStatusPayload => λ _ w,
      ((200%Z, {| SyncStatus_Data := {| HeadSlot := 251114; IsSyncing := false |} |},
        None), w)
  | _ => λ d w, ((200%Z, d, None), w)
  end.

(** A node that answers every request with status 503. *)
Definition unavailable_node (rq : request) (t : response) (d : dst unit unit t)
    (w : unit) : (Z * dst unit unit t * option error) * unit :=
  ((503%Z, d, Some (ErrorString "HTTP error response")), w).

(** No non-ASCII lower-casing is needed for hex strings. *)
Definition no_unicode (s : string) : string := s.

Definition start : state unit := {| world := (); issued := [] |}.

Definition node : ProdBeaconInstance := {| beaconURI := "http://localhost:3500" |}.

(** ** Head-event bodies *)



(** The body of a head event as the beacon node sends it: an object with the
    slot as a decimal string, and the block and state roots. *)
Definition head_event_body (slot : N) (block state : string) : string :=
  "{" +:+ json.quoted "slot" +:+ ":" +:+ json.quoted (strconv.FormatUint slot)
  +:+ "," +:+ json.quoted "block" +:+ ":" +:+ json.quoted block
  +:+ "," +:+ json.quoted "state" +:+ ":" +:+ json.quoted state +:+ "}".


(** ** Further observations *)

(** The decoding errors the callback logged, in order. *)
Definition unmarshal_failures (tr : list action) : list error :=
  omap (λ a, match a with
             | LogError msg e =>
                 if bool_decide (msg = "could not unmarshal head event")
                 then Some e else None
             | _ => None
             end) tr.

(** The key names a field of [HeadEventData]. *)
Definition names_field (key : string) : bool :=
  json.selects "slot" key || json.selects "block" key || json.selects "state" key.

(** The JSON values the [slot] member may have without an error: [null],
    the string [null], or a string that [strconv.ParseUint] reads. *)
Definition slot_acceptable (v : json.value) : bool :=
  match v with
  | json.Null => true
  | json.Str item =>
      bool_decide (item = "null")
      || match strconv.ParseUint item with Some _ => true | None => false end
  | _ => false
  end.

(** An accessor that runs as one GET of [url] with a fresh destination of
    type [t], and returns the destination and the error as the fetch left
    them. *)
Definition one_request {ExecutionPayload} (zero : ExecutionPayload)
    {Withdrawal World}
    (serve : request → ∀ t : response,
       dst ExecutionPayload Withdrawal t → World
       → (Z * dst ExecutionPayload Withdrawal t * option error) * World)
    (t : response) (url : string)
    (m : Beacon World (option (dst ExecutionPayload Withdrawal t) * option error))
    (σ : state World) : Prop :=
  let rq := {| req_method := "GET"; req_url := url |} in
  match serve rq t (new zero t) (world σ) with
  | ((_, resp, err), w) =>
      m σ = Some ((Some resp, err),
                  {| world := w; issued := issued σ ++ [rq] |})
  end.

(** A node that is still syncing: it answers 206 and reports its head. *)
Definition syncing_node (rq : request) (t : response)
  : dst unit unit t → unit → (Z * dst unit unit t * option error) * unit :=
  match t with
  | TSyncStatusPayload => λ _ w,
      ((206%Z, {| SyncStatus_Data := {| HeadSlot := 1000; IsSyncing := true |} |},
        None), w)
  | _ => λ d w, ((200%Z, d, None), w)
  end.

(** A node whose validators differ in the case of their pubkeys only. *)
Definition shouting_node (rq : request) (t : response)
  : dst unit unit t → unit → (Z * dst unit unit t * option error) * unit :=
  match t with
  | TAllValidatorsResponse => λ _ w,
      ((200%Z, {| AllValidators_Data := [validator 1 "0xAB"; validator 2 "0xab"] |},
        None), w)
  | _ => λ d w, ((200%Z, d, None), w)
  end.

(** The head event of the comment above [HeadEventData]. *)
Definition documented_head_event : string :=
  "{" +:+ json.quoted "slot" +:+ ":" +:+ json.quoted "827256"
  +:+ "," +:+ json.quoted "block" +:+ ":"
  +:+ json.quoted "0x56b683afa68170c775f3c9debc18a6a72caea9055584d037333a6fe43c8ceb83"
  +:+ "," +:+ json.quoted "state" +:+ ":"
  +:+ json.quoted "0x419e2965320d69c4213782dae73941de802a4f436408fddd6f68b671b3ff4e55"
  +:+ "," +:+ json.quoted "epoch_transition" +:+ ":false"
  +:+ "," +:+ json.quoted "execution_optimistic" +:+ ":false"
  +:+ "," +:+ json.quoted "previous_duty_dependent_root" +:+ ":"
  +:+ json.quoted "0x5b81a526839b7fb67c3896f1125451755088fb578ad27c2690b3209f3d7c6b54"
  +:+ "," +:+ json.quoted "current_duty_dependent_root" +:+ ":"
  +:+ json.quoted "0x5f3232c0d5741e27e13754e1d88285c603b07dd6164b35ca57e94344a9e42942"
  +:+ "}".

(** ** [strconv] on signed integers *)

(** [fmt.Sprint] of an [int64]: [strconv.FormatInt(i, 10)]. *)
Definition FormatInt (i : Z) : string := NilZero.string_of_int (Z.to_int i).

Definition minInt64 : Z := -9223372036854775808.
Definition maxInt64 : Z := 9223372036854775807.

(** [strconv.ParseInt(s, 10, 64)]: an optional sign, one or more decimal
    digits, and a value that fits 64 bits. *)
Definition ParseInt (s : string) : option Z :=
  let '(negative, digits) :=
    match s with
    | String c r =>
        if bool_decide (c = "-"%char) then (true, r)
        else if bool_decide (c = "+"%char) then (false, r)
        else (false, s)
    | "" => (false, s)
    end in
  match NilZero.uint_of_string digits with
  | Some d =>
      let i := if negative then (- Z.of_N (N.of_uint d))%Z else Z.of_N (N.of_uint d) in
      if ((minInt64 <=? i) && (i <=? maxInt64))%Z then Some i else None
  | None => None
  end.

(** ** The database entities *)

Module database.

(** [sql.NullInt64] and [sql.NullString] *)
Record NullInt64 : Type := { Int64 : Z; NullInt64_Valid : bool }.
Record NullString : Type := { String_ : string; NullString_Valid : bool }.

Definition NewNullInt64 (i : Z) : NullInt64 :=
  {| Int64 := i; NullInt64_Valid := true |}.

Definition NewNullString (s : string) : NullString :=
  {| String_ := s; NullString_Valid := true |}.

Section entities.

(** [time.Time], with its zero value and [t.UTC().String()]. *)
Context {Time : Type}.
Variable Time_zero : Time.
Variable UTC_String : Time → string.

(** [types.PublicKey], [types.Address] and [types.Signature] of
    go-boost-utils, with their parsers from hex and their [String] methods. *)
Context {PublicKey Address Signature : Type}.
Variable HexToPubkey : string → PublicKey * option error.
Variable HexToAddress : string → Address * option error.
Variable HexToSignature : string → Signature * option error.
Variable PublicKey_String : PublicKey → string.
Variable Address_String : Address → string.
Variable Signature_String : Signature → string.

(** [sql.NullTime] *)
Record NullTime : Type := { Time_ : Time; NullTime_Valid : bool }.

Definition NewNullTime (t : Time) : NullTime :=
  {| Time_ := t; NullTime_Valid := true |}.

(** [types.RegisterValidatorRequestMessage] and
    [types.SignedValidatorRegistration] of go-boost-utils. *)
Record RegisterValidatorRequestMessage : Type := {
  Message_FeeRecipient : Address;
  Message_GasLimit : N;
  Message_Timestamp : N;
  Message_Pubkey : PublicKey;
}.

Record SignedValidatorRegistration : Type := {
  Message : option RegisterValidatorRequestMessage;   (* a pointer *)
  Registration_Signature : Signature;
}.

Record ValidatorRegistrationEntry : Type := {
  ID : Z;                    (* `db:"id"`, an int64 *)
  InsertedAt : Time;         (* `db:"inserted_at"` *)
  Pubkey : string;           (* `db:"pubkey"` *)
  FeeRecipient : string;     (* `db:"fee_recipient"` *)
  Timestamp : N;             (* `db:"timestamp"` *)
  GasLimit : N;              (* `db:"gas_limit"` *)
  Signature_ : string;       (* `db:"signature"`, the field [Signature] *)
}.

Definition ToSignedValidatorRegistration (reg : ValidatorRegistrationEntry)
  : option SignedValidatorRegistration * option error :=
  let '(pubkey, err) := HexToPubkey (Pubkey reg) in
  match err with
  | Some e => (None, Some e)
  | None =>
      let '(feeRec, err) := HexToAddress (FeeRecipient reg) in
      match err with
      | Some e => (None, Some e)
      | None =>
          let '(sig, err) := HexToSignature (Signature_ reg) in
          match err with
          | Some e => (None, Some e)
          | None =>
              (Some {| Message :=
                         Some {| Message_Pubkey := pubkey;
                                 Message_FeeRecipient := feeRec;
                                 Message_Timestamp := Timestamp reg;
                                 Message_GasLimit := GasLimit reg |};
                       Registration_Signature := sig |},
               None)
          end
      end
  end.

(** [None]: the nil [Message] is dereferenced, and the function panics. *)
Definition SignedValidatorRegistrationToEntry (valReg : SignedValidatorRegistration)
  : option ValidatorRegistrationEntry :=
  match Message valReg with
  | None => None
  | Some message =>
      Some {| ID := 0; InsertedAt := Time_zero;
              Pubkey := PublicKey_String (Message_Pubkey message);
              FeeRecipient := Address_String (Message_FeeRecipient message);
              Timestamp := Message_Timestamp message;
              GasLimit := Message_GasLimit message;
              Signature_ := Signature_String (Registration_Signature valReg) |}
  end.

Record ExecutionPayloadEntry : Type := {
  Entry_ID : Z;              (* [ID], an int64 *)
  Entry_InsertedAt : Time;   (* [InsertedAt] *)
  Entry_Slot : N;            (* [Slot] *)
  ProposerPubkey : string;
  BlockHash : string;
  Version : string;
  Payload : string;
}.

Definition ExecutionPayloadEntryCSVHeader : list string :=
  ["id"; "inserted_at"; "slot"; "proposer_pubkey"; "block_hash"; "version"; "payload"].

(** The receiver is a pointer; [None]: it is nil, and the method panics. *)
Definition ToCSVRecord (e : option ExecutionPayloadEntry) : option (list string) :=
  match e with
  | None => None
  | Some e =>
      Some [FormatInt (Entry_ID e);
            UTC_String (Entry_InsertedAt e);
            strconv.FormatUint (Entry_Slot e);
            ProposerPubkey e;
            BlockHash e;
            Version e;
            Payload e]
  end.

(** The field of a record under the column [name] of the header. *)
Definition column (name : string) (record : list string) : option string :=
  list_find (λ h, h = name) ExecutionPayloadEntryCSVHeader
    ≫= λ '(i, _), record !! i.

End entities.

(** *** Hex strings to run the conversions on

    Keys, addresses and signatures as their hex digits; a hex string is the
    prefix [0x] and the digits. *)
Definition with_prefix (digits : string) : string := "0x" +:+ digits.

Definition from_hex (s : string) : string * option error :=
  match s with
  | String z (String x digits) =>
      if bool_decide (z = "0"%char) && bool_decide (x = "x"%char)
      then (digits, None)
      else ("", Some (ErrorString "hex string without 0x prefix"))
  | _ => ("", Some (ErrorString "hex string without 0x prefix"))
  end.

End database.

(** * Properties *)

(** Appends associated to the right, with the conses pulled out. *)
Ltac list_normalize :=
  repeat (progress (cbn [app]; rewrite <- ?app_assoc)).

(** ** Numbers as decimal strings *)

Lemma ParseUint_FormatUint (n : N) :
  (n <= strconv.maxUint64)%N → strconv.ParseUint (strconv.FormatUint n) = Some n.
Proof.
  intros Hn. unfold strconv.ParseUint, strconv.FormatUint.
  assert (Hnil : N.to_uint n ≠ Decimal.Nil).
  { destruct n as [|p]; [done|]. apply DecimalPos.Unsigned.to_uint_nonnil. }
  rewrite NilZero.usu by done.
  rewrite DecimalN.Unsigned.of_to.
  apply N.leb_le in Hn. by rewrite Hn.
Qed.

(** ** The head-event loop *)

Lemma sent_app (t1 t2 : list action) : sent (t1 ++ t2) = sent t1 ++ sent t2.
Proof. apply omap_app. Qed.

Lemma subscriptions_app (t1 t2 : list action) :
  subscriptions (t1 ++ t2) = subscriptions t1 ++ subscriptions t2.
Proof. apply omap_app. Qed.

(** The callback does one thing per event: it sends the decoded event, or it
    logs the decoding error. *)
Lemma handler_cases (msg : Event) :
  (∃ d, decoded msg = Some d ∧ handler msg = [Send d])
  ∨ (∃ e, decoded msg = None
          ∧ handler msg = [LogError "could not unmarshal head event" e]).
Proof.
  unfold decoded, handler.
  destruct (Unmarshal_HeadEventData _ _) as [d [e|]]; eauto.
Qed.

Lemma sent_handler (evs : list Event) :
  sent (flat_map handler evs) = omap decoded evs.
Proof.
  induction evs as [|msg evs IH]; [done|].
  simpl. rewrite sent_app, IH.
  destruct (handler_cases msg) as [(d & -> & ->)|(e & -> & ->)]; done.
Qed.

Lemma subscriptions_handler (evs : list Event) :
  subscriptions (flat_map handler evs) = [].
Proof.
  induction evs as [|msg evs IH]; [done|].
  simpl. rewrite subscriptions_app, IH.
  destruct (handler_cases msg) as [(d & _ & ->)|(e & _ & ->)]; done.
Qed.

(** The loop never leaves: after any number of rounds it is still running,
    and its trace is the rounds' traces one after the other. *)
Lemma forever_round (c : ProdBeaconInstance) (upstream : list session) :
  forever (round c) upstream = (rounds c upstream, Running).
Proof.
  unfold rounds. induction upstream as [|s rest IH]; [done|].
  simpl. rewrite IH. done.
Qed.

Lemma SubscribeToHeadEvents_trace (c : ProdBeaconInstance) (upstream : list session) :
  SubscribeToHeadEvents c upstream
  = (LogInfo "subscribing to head events" :: rounds c upstream, Running).
Proof. unfold SubscribeToHeadEvents. by rewrite forever_round. Qed.

Lemma round_trace (c : ProdBeaconInstance) (s : session) :
  (round c s).1
  = Subscribe (eventsURL c) :: flat_map handler (events s) ++ reconnect (result s).
Proof. reflexivity. Qed.

Lemma rounds_cons (c : ProdBeaconInstance) (s : session) (rest : list session) :
  rounds c (s :: rest) = (round c s).1 ++ rounds c rest.
Proof. reflexivity. Qed.

Lemma rounds_app (c : ProdBeaconInstance) (u1 u2 : list session) :
  rounds c (u1 ++ u2) = rounds c u1 ++ rounds c u2.
Proof. apply flat_map_app. Qed.

Lemma sent_reconnect (err : option error) : sent (reconnect err) = [].
Proof. by destruct err. Qed.

Lemma subscriptions_reconnect (err : option error) :
  subscriptions (reconnect err) = [].
Proof. by destruct err. Qed.

Lemma sent_round (c : ProdBeaconInstance) (s : session) :
  sent (round c s).1 = omap decoded (events s).
Proof.
  rewrite round_trace. change (sent (Subscribe ?u :: ?t)) with (sent t).
  by rewrite sent_app, sent_handler, sent_reconnect, app_nil_r.
Qed.

Lemma subscriptions_round (c : ProdBeaconInstance) (s : session) :
  subscriptions (round c s).1 = [eventsURL c].
Proof.
  rewrite round_trace.
  change (subscriptions (Subscribe ?u :: ?t)) with (u :: subscriptions t).
  by rewrite subscriptions_app, subscriptions_handler, subscriptions_reconnect.
Qed.

Lemma sent_rounds (c : ProdBeaconInstance) (upstream : list session) :
  sent (rounds c upstream) = omap decoded (concat (events <$> upstream)).
Proof.
  induction upstream as [|s rest IH]; [done|].
  rewrite rounds_cons, sent_app, sent_round, IH.
  cbn [fmap list_fmap concat]. by rewrite omap_app.
Qed.

Lemma subscriptions_rounds (c : ProdBeaconInstance) (upstream : list session) :
  subscriptions (rounds c upstream) = replicate (length upstream) (eventsURL c).
Proof.
  induction upstream as [|s rest IH]; [done|].
  by rewrite rounds_cons, subscriptions_app, subscriptions_round, IH.
Qed.

(** C1. Whatever the upstream does, session after session, the consumer of
    [slotC] receives exactly the events that decode, in the order the
    upstream emitted them: none is dropped, reordered or repeated. *)
Theorem head_events_delivered_in_order (c : ProdBeaconInstance)
    (upstream : list session) :
  sent (SubscribeToHeadEvents c upstream).1
  = omap decoded (concat (events <$> upstream)).
Proof.
  rewrite SubscribeToHeadEvents_trace. cbn [fst].
  rewrite <- (sent_rounds c). reflexivity.
Qed.

Lemma handler_undecodable (bad : Event) (partial : HeadEventData) (e : error) :
  Unmarshal_HeadEventData (Data bad) HeadEventData_zero = (partial, Some e) →
  handler bad = [LogError "could not unmarshal head event" e].
Proof. intros H. unfold handler. by rewrite H. Qed.

Lemma decoded_undecodable (bad : Event) (partial : HeadEventData) (e : error) :
  Unmarshal_HeadEventData (Data bad) HeadEventData_zero = (partial, Some e) →
  decoded bad = None.
Proof. intros H. unfold decoded. by rewrite H. Qed.

(** C2. An event whose data does not decode is logged and skipped.  The trace
    of the loop with such an event in a session is the trace without it, with
    the one log entry added where the event arrived: nothing is sent for it,
    no connection attempt and no backoff is added, and everything received
    before and after it, in the same session and in later ones, is delivered
    as if it had not been there. *)
Theorem malformed_event_skipped (c : ProdBeaconInstance)
    (before after : list session) (pre post : list Event) (r : option error)
    (bad : Event) (partial : HeadEventData) (e : error) :
  Unmarshal_HeadEventData (Data bad) HeadEventData_zero = (partial, Some e) →
  handler bad = [LogError "could not unmarshal head event" e]
  ∧ (SubscribeToHeadEvents c
       (before ++ {| events := pre ++ bad :: post; result := r |} :: after)).1
    = (LogInfo "subscribing to head events" :: rounds c before
         ++ Subscribe (eventsURL c) :: flat_map handler pre)
      ++ LogError "could not unmarshal head event" e
      :: (flat_map handler post ++ reconnect r ++ rounds c after)
  ∧ (SubscribeToHeadEvents c
       (before ++ {| events := pre ++ post; result := r |} :: after)).1
    = (LogInfo "subscribing to head events" :: rounds c before
         ++ Subscribe (eventsURL c) :: flat_map handler pre)
      ++ (flat_map handler post ++ reconnect r ++ rounds c after)
  ∧ sent (SubscribeToHeadEvents c
            (before ++ {| events := pre ++ bad :: post; result := r |} :: after)).1
    = omap decoded (concat (events <$> before) ++ pre ++ post
                    ++ concat (events <$> after)).
Proof.
  intros Hbad. pose proof (handler_undecodable _ _ _ Hbad) as Hh.
  split; [done|].
  rewrite !SubscribeToHeadEvents_trace. cbn [fst].
  split; [|split].
  - rewrite rounds_app, rounds_cons, round_trace. cbn [events result].
    rewrite flat_map_app. cbn [flat_map]. rewrite Hh. by list_normalize.
  - rewrite rounds_app, rounds_cons, round_trace. cbn [events result].
    rewrite flat_map_app. by list_normalize.
  - change (sent (LogInfo ?m :: ?t)) with (sent t).
    rewrite sent_rounds, fmap_app, concat_app.
    cbn [fmap list_fmap concat events].
    rewrite !omap_app. cbn [omap list_omap].
    rewrite (decoded_undecodable _ _ _ Hbad). by list_normalize.
Qed.

(** *** Backoff *)









(** *** No terminal state *)

(** C4. The loop has no exit.  After any sessions whatever, and so after any
    number of failed ones, the function has not returned; it has made one
    connection attempt per session, each to the events URL; and when the
    upstream goes on, the next round is run in full. *)
Theorem subscription_never_ends (c : ProdBeaconInstance)
    (upstream : list session) :
  (SubscribeToHeadEvents c upstream).2 = Running
  ∧ subscriptions (SubscribeToHeadEvents c upstream).1
    = replicate (length upstream) (eventsURL c)
  ∧ (∀ next,
       (SubscribeToHeadEvents c (upstream ++ [next])).2 = Running
       ∧ (SubscribeToHeadEvents c (upstream ++ [next])).1
         = (SubscribeToHeadEvents c upstream).1
           ++ Subscribe (eventsURL c)
           :: flat_map handler (events next) ++ reconnect (result next)
       ∧ attempts (SubscribeToHeadEvents c (upstream ++ [next])).1
         = S (length upstream))
  ∧ (∀ s, (round c s).2 = Continue).
Proof.
  rewrite SubscribeToHeadEvents_trace. cbn [fst snd].
  split; [done|]. split.
  { change (subscriptions (LogInfo ?m :: ?t)) with (subscriptions t).
    apply subscriptions_rounds. }
  split; [|done].
  intros next. rewrite SubscribeToHeadEvents_trace. cbn [fst snd].
  split; [done|]. split.
  - rewrite rounds_app. unfold rounds at 2. cbn [flat_map].
    rewrite round_trace, app_nil_r. reflexivity.
  - unfold attempts.
    change (subscriptions (LogInfo ?m :: ?t)) with (subscriptions t).
    rewrite subscriptions_rounds, length_replicate, length_app. simpl. lia.
Qed.

(** ** Decoding head events *)

Lemma append_cons (c : ascii) (s t : string) :
  String c s +:+ t = String c (s +:+ t).
Proof. reflexivity. Qed.


Lemma append_nil_r (s : string) : s +:+ "" = s.
Proof. induction s as [|c s IH]; [done|]. by rewrite append_cons, IH. Qed.









(** A member tagged [,string] whose contents [strconv.ParseUint] accepts is
    stored as the number parsed. *)
Lemma store_uint64_quoted_parsed (item : string) (n cur : N) :
  strconv.ParseUint item = Some n →
  json.store_uint64_quoted (json.Str item) cur = json.Stored n.
Proof.
  intros Hp. unfold json.store_uint64_quoted.
  destruct item as [|c item].
  { discriminate Hp. }
  assert (Hd : json.is_digit c = true).
  { unfold strconv.ParseUint, NilZero.uint_of_string in Hp.
    cbn [NilEmpty.uint_of_string] in Hp.
    destruct (uint_of_char c (NilEmpty.uint_of_string item)) as [d'|] eqn:Hc;
      [|done].
    destruct (NilEmpty.uint_of_string item) as [d|]; [|done].
    apply uint_of_char_spec in Hc.
    destruct Hc as [[-> _]|[[-> _]|[[-> _]|[[-> _]|[[-> _]|[[-> _]|[[-> _]
      |[[-> _]|[[-> _]|[-> _]]]]]]]]]]; reflexivity. }
  assert (Hcode : (48 <= json.code c <= 57)%N).
  { unfold json.is_digit, json.between in Hd.
    apply andb_prop in Hd as [?%N.leb_le ?%N.leb_le]. done. }
  assert (∀ x : ascii, json.code c ≠ json.code x → bool_decide (c = x) = false) as Hne.
  { intros x Hx. apply bool_decide_eq_false. by intros ->. }
  rewrite (Hne "n"%char), (Hne "t"%char), (Hne "f"%char) by (cbn; lia).
  cbn [orb]. rewrite bool_decide_eq_false_2 by lia.
  rewrite Hd, Hp. by rewrite andb_false_r.
Qed.










(** ** The accessors *)

Section accessor_properties.

Context {ExecutionPayload : Type} (zero : ExecutionPayload).
Context {Withdrawal World : Type}.
Context (serve : request → ∀ t : response,
           dst ExecutionPayload Withdrawal t → World
           → (Z * dst ExecutionPayload Withdrawal t * option error) * World).
Context (unicode_lower : string → string).

Lemma validators_url (endpoint : string) (headSlot : N) :
  Sprintf "%s/eth/v1/beacon/states/%d/validators?status=active,pending"
    [ArgString endpoint; ArgUint headSlot]
  = endpoint +:+ "/eth/v1/beacon/states/" +:+ strconv.FormatUint headSlot
    +:+ "/validators?status=active,pending".
Proof. reflexivity. Qed.

(** One call of [fetchAllValidators] is one request, and its results are
    what the world made of it. *)
Lemma fetchAllValidators_run (c : ProdBeaconInstance) (headSlot : N)
    (σ : state World) (code : Z) (vd : AllValidatorsResponse)
    (err : option error) (w : World) :
  serve (validators_request c headSlot) TAllValidatorsResponse
    (new zero TAllValidatorsResponse) (world σ) = ((code, vd, err), w) →
  fetchAllValidators zero serve (beaconURI c) headSlot σ
  = Some ((Some vd, err),
          {| world := w; issued := issued σ ++ [validators_request c headSlot] |}).
Proof.
  intros H. unfold fetchAllValidators, bind, fetchBeacon.
  rewrite validators_url. fold (validators_request c headSlot).
  unfold MethodGet. fold (validators_request c headSlot).
  by rewrite H.
Qed.

Lemma collect_cons (vs : ValidatorResponseEntry)
    (entries : list ValidatorResponseEntry)
    (m : gmap string ValidatorResponseEntry) :
  collect unicode_lower (vs :: entries) m
  = collect unicode_lower entries (<[validator_key unicode_lower vs := vs]> m).
Proof. reflexivity. Qed.

Lemma collect_lookup (entries : list ValidatorResponseEntry)
    (m : gmap string ValidatorResponseEntry) (k : string) :
  collect unicode_lower entries m !! k
  = match last (filter (λ vs, validator_key unicode_lower vs = k) entries) with
    | Some vs => Some vs
    | None => m !! k
    end.
Proof.
  revert m. induction entries as [|vs entries IH]; intros m; [done|].
  rewrite collect_cons, IH.
  rewrite filter_cons. case_decide as Hk.
  - rewrite last_cons.
    destruct (last (filter _ entries)); [done|].
    by rewrite <- Hk, lookup_insert_eq.
  - destruct (last (filter _ entries)); [done|].
    by rewrite lookup_insert_ne.
Qed.

Lemma collect_dom (entries : list ValidatorResponseEntry)
    (m : gmap string ValidatorResponseEntry) :
  dom (collect unicode_lower entries m)
  = list_to_set (validator_key unicode_lower <$> entries) ∪ dom m.
Proof.
  revert m. induction entries as [|vs entries IH]; intros m.
  - cbn. set_solver.
  - rewrite collect_cons, IH, dom_insert_L.
    rewrite fmap_cons, list_to_set_cons. set_solver.
Qed.

Lemma collect_size (entries : list ValidatorResponseEntry) :
  size (collect unicode_lower entries ∅)
  = length (remove_dups (validator_key unicode_lower <$> entries)).
Proof.
  rewrite <- size_dom, collect_dom, dom_empty_L, (right_id_L ∅ (∪)).
  rewrite <- (size_list_to_set (C:=gset string)) by apply NoDup_remove_dups.
  f_equal. apply set_eq. intros k.
  by rewrite !elem_of_list_to_set, elem_of_remove_dups.
Qed.

Lemma remove_dups_pair (k1 k2 : string) :
  k1 ≠ k2 → remove_dups [k1; k2] = [k1; k2].
Proof.
  intros Hne. cbn.
  destruct (decide_rel elem_of k1 [k2]) as [Hin|_]; [set_solver|].
  destruct (decide_rel elem_of k2 []) as [Hin|_]; [set_solver|done].
Qed.

Lemma FetchValidators_run (c : ProdBeaconInstance) (headSlot : N)
    (σ : state World) (code : Z) (vd : AllValidatorsResponse)
    (err : option error) (w : World) :
  serve (validators_request c headSlot) TAllValidatorsResponse
    (new zero TAllValidatorsResponse) (world σ) = ((code, vd, err), w) →
  FetchValidators zero serve unicode_lower c headSlot σ
  = Some (match err with
          | Some e => (None, Some e)
          | None => (Some (collect unicode_lower (AllValidators_Data vd) ∅), None)
          end,
          {| world := w; issued := issued σ ++ [validators_request c headSlot] |}).
Proof.
  intros H. unfold FetchValidators, bind.
  rewrite (fetchAllValidators_run _ _ _ _ _ _ _ H).
  by destruct err.
Qed.

(** C5. When the fetch succeeds, [FetchValidators] returns a map whose keys
    are exactly the normalised pubkeys of the entries of the response; a key
    occurs once, and is bound to the last entry of the response that has it.
    In particular two entries with different normalised pubkeys give a map
    of size 2 that binds each key to its entry. *)
Theorem validator_set_keys (c : ProdBeaconInstance) (headSlot : N)
    (σ : state World) (code : Z) (vd : AllValidatorsResponse) (w : World) :
  serve (validators_request c headSlot) TAllValidatorsResponse
    (new zero TAllValidatorsResponse) (world σ) = ((code, vd, None), w) →
  ∃ m : gmap string ValidatorResponseEntry,
    FetchValidators zero serve unicode_lower c headSlot σ
    = Some ((Some m, None),
            {| world := w; issued := issued σ ++ [validators_request c headSlot] |})
    ∧ dom m = list_to_set (validator_key unicode_lower <$> AllValidators_Data vd)
    ∧ NoDup (map_to_list m).*1
    ∧ size m
      = length (remove_dups (validator_key unicode_lower <$> AllValidators_Data vd))
    ∧ (∀ k, m !! k = last (filter (λ vs, validator_key unicode_lower vs = k)
                             (AllValidators_Data vd)))
    ∧ (∀ e1 e2,
         AllValidators_Data vd = [e1; e2] →
         validator_key unicode_lower e1 ≠ validator_key unicode_lower e2 →
         size m = 2%nat
         ∧ m !! validator_key unicode_lower e1 = Some e1
         ∧ m !! validator_key unicode_lower e2 = Some e2).
Proof.
  intros H. exists (collect unicode_lower (AllValidators_Data vd) ∅).
  assert (Hlast : ∀ k, collect unicode_lower (AllValidators_Data vd) ∅ !! k
                       = last (filter (λ vs, validator_key unicode_lower vs = k)
                                 (AllValidators_Data vd))).
  { intros k. rewrite collect_lookup, lookup_empty. by destruct (last _). }
  split; [exact (FetchValidators_run _ _ _ _ _ _ _ H)|].
  split; [by rewrite collect_dom, dom_empty_L, (right_id_L ∅ (∪))|].
  split; [apply NoDup_fst_map_to_list|].
  split; [apply collect_size|].
  split; [exact Hlast|].
  intros e1 e2 Hd Hne. rewrite collect_size, !Hlast, Hd.
  split; [|split].
  - cbn [fmap list_fmap]. by rewrite remove_dups_pair.
  - rewrite !filter_cons, filter_nil.
    rewrite decide_True by done. by rewrite decide_False by done.
  - rewrite !filter_cons, filter_nil.
    rewrite decide_False by done. by rewrite decide_True by done.
Qed.

(** C7. When the fetch fails, [FetchValidators] returns a nil map and the
    error of the fetch, as it is; it has issued the one request of the fetch
    and no other, so nothing was retried.  A map is returned exactly when the
    fetch returned no error. *)
Theorem fetch_error_propagated (c : ProdBeaconInstance) (headSlot : N)
    (σ : state World) (code : Z) (vd : AllValidatorsResponse) (e : error)
    (w : World) :
  serve (validators_request c headSlot) TAllValidatorsResponse
    (new zero TAllValidatorsResponse) (world σ) = ((code, vd, Some e), w) →
  FetchValidators zero serve unicode_lower c headSlot σ
  = Some ((None, Some e),
          {| world := w; issued := issued σ ++ [validators_request c headSlot] |})
  ∧ returns_nil_on_error (FetchValidators zero serve unicode_lower c headSlot) σ.
Proof.
  intros H. pose proof (FetchValidators_run _ _ _ _ _ _ _ H) as Hrun.
  split; [exact Hrun|].
  eexists _, _, _. split; [exact Hrun|]. reflexivity.
Qed.

(** C9. Whatever the world answers, [FetchValidators] issues one request: a
    GET of the validators of the state at the head slot, the slot in decimal,
    filtered to the statuses active and pending. *)
Theorem validators_request_issued (c : ProdBeaconInstance) (headSlot : N)
    (σ : state World) :
  ∃ r σ',
    FetchValidators zero serve unicode_lower c headSlot σ = Some (r, σ')
    ∧ issued σ'
      = issued σ
        ++ [{| req_method := "GET";
               req_url := beaconURI c +:+ "/eth/v1/beacon/states/"
                          +:+ strconv.FormatUint headSlot
                          +:+ "/validators?status=active,pending" |}].
Proof.
  destruct (serve (validators_request c headSlot) TAllValidatorsResponse
              (new zero TAllValidatorsResponse) (world σ))
    as [[[code vd] err] w] eqn:H.
  eexists _, _. split; [exact (FetchValidators_run _ _ _ _ _ _ _ H)|].
  reflexivity.
Qed.

Lemma SyncStatus_run (c : ProdBeaconInstance) (σ : state World) :
  ∃ code resp err w,
    serve {| req_method := "GET"; req_url := beaconURI c +:+ "/eth/v1/node/syncing" |}
      TSyncStatusPayload (new zero TSyncStatusPayload) (world σ)
    = ((code, resp, err), w)
    ∧ SyncStatus zero serve c σ
      = Some (match err with
              | Some e => (None, Some e)
              | None => (Some (SyncStatus_Data resp), None)
              end,
              {| world := w;
                 issued := issued σ
                           ++ [{| req_method := "GET";
                                  req_url := beaconURI c +:+ "/eth/v1/node/syncing" |}] |}).
Proof.
  destruct (serve {| req_method := "GET";
                     req_url := beaconURI c +:+ "/eth/v1/node/syncing" |}
              TSyncStatusPayload (new zero TSyncStatusPayload) (world σ))
    as [[[code resp] err] w] eqn:H.
  exists code, resp, err, w. split; [done|].
  unfold SyncStatus, bind, fetchBeacon, MethodGet. rewrite H. by destruct err.
Qed.

(** C8. [CurrentSlot] is the head slot of [SyncStatus]: when [SyncStatus]
    returns a status and no error, [CurrentSlot] returns the head slot of
    that status and no error; when [SyncStatus] returns an error,
    [CurrentSlot] returns 0 and that error.  One of the two is always the
    case, so [CurrentSlot] never dereferences a nil status. *)
Theorem current_slot_from_sync_status (c : ProdBeaconInstance) (σ : state World) :
  (∀ st σ',
     SyncStatus zero serve c σ = Some ((Some st, None), σ') →
     CurrentSlot zero serve c σ = Some ((HeadSlot st, None), σ'))
  ∧ (∀ r e σ',
       SyncStatus zero serve c σ = Some ((r, Some e), σ') →
       CurrentSlot zero serve c σ = Some ((0%N, Some e), σ'))
  ∧ returns_nil_on_error (SyncStatus zero serve c) σ
  ∧ (∃ slot err σ', CurrentSlot zero serve c σ = Some ((slot, err), σ')).
Proof.
  destruct (SyncStatus_run c σ) as (code & resp & err & w & _ & Hrun).
  unfold CurrentSlot, bind. rewrite Hrun.
  split; [|split; [|split]].
  - intros st σ' Heq. destruct err; by simplify_eq.
  - intros r e σ' Heq. destruct err; by simplify_eq.
  - destruct err; eexists _, _, _; (split; [exact Hrun|]); [done|by eexists].
  - destruct err; by eexists _, _, _.
Qed.

(** Every accessor of this shape: one request, and the destination returned
    whatever the error. *)
Ltac accessor_returns :=
  match goal with
  | |- returns_non_nil ?m ?σ =>
      let m' := eval hnf in m in
      change (returns_non_nil m' σ);
      unfold returns_non_nil, bind, fetchBeacon;
      match goal with
      | |- context [serve ?rq ?t ?d ?w] =>
          destruct (serve rq t d w) as [[[? ?] ?] ?]
      end;
      by eexists _, _, _
  end.

(** C10. Each of the ten accessors listed returns a response that is not
    nil, whether or not it also returns an error: with an error the caller
    gets the destination as the decoder left it.  [SyncStatus] and
    [FetchValidators] differ: with an error their first result is nil. *)
Theorem responses_never_nil (c : ProdBeaconInstance) (σ : state World)
    (epoch slot : N) (blockID : string) :
  returns_non_nil (GetProposerDuties zero serve c epoch) σ
  ∧ returns_non_nil (GetHeader zero serve c) σ
  ∧ returns_non_nil (GetHeaderForSlot zero serve c slot) σ
  ∧ returns_non_nil (GetBlock zero serve c blockID) σ
  ∧ returns_non_nil (GetBlockForSlot zero serve c slot) σ
  ∧ returns_non_nil (GetGenesis zero serve c) σ
  ∧ returns_non_nil (GetSpec zero serve c) σ
  ∧ returns_non_nil (GetForkSchedule zero serve c) σ
  ∧ returns_non_nil (GetRandao zero serve c slot) σ
  ∧ returns_non_nil (GetWithdrawals zero serve c slot) σ
  ∧ returns_nil_on_error (SyncStatus zero serve c) σ
  ∧ returns_nil_on_error (FetchValidators zero serve unicode_lower c slot) σ.
Proof.
  repeat (split; [accessor_returns|]).
  split.
  - destruct (SyncStatus_run c σ) as (code & resp & err & w & _ & Hrun).
    destruct err; eexists _, _, _; (split; [exact Hrun|]); [done|by eexists].
  - destruct (serve (validators_request c slot) TAllValidatorsResponse
                (new zero TAllValidatorsResponse) (world σ))
      as [[[code vd] err] w] eqn:H.
    pose proof (FetchValidators_run _ _ _ _ _ _ _ H) as Hrun.
    destruct err; eexists _, _, _; (split; [exact Hrun|]); [done|by eexists].
Qed.

End accessor_properties.

(** ** The properties at work *)

Lemma malformed_event_skipped_witness :
  sent (SubscribeToHeadEvents node
          [{| events := [{| Data := head_event_body 7 "0x0a" "0x0b" |};
                         {| Data := "<html>502 Bad Gateway</html>" |};
                         {| Data := head_event_body 8 "0x0c" "0x0d" |}];
              result := None |}]).1
  = [{| Slot := 7; Block := "0x0a"; State := "0x0b" |};
     {| Slot := 8; Block := "0x0c"; State := "0x0d" |}].
Proof.
  pose proof (malformed_event_skipped node [] []
                [{| Data := head_event_body 7 "0x0a" "0x0b" |}]
                [{| Data := head_event_body 8 "0x0c" "0x0d" |}] None
                {| Data := "<html>502 Bad Gateway</html>" |}
                HeadEventData_zero SyntaxError) as H.
  destruct H as (_ & _ & _ & Hsent); [vm_compute; reflexivity|].
  refine (eq_trans Hsent _). vm_compute. reflexivity.
Defined.

Lemma validator_set_keys_witness :
  ∃ m σ',
    FetchValidators () healthy_node no_unicode node 251114 start
    = Some ((Some m, None), σ')
    ∧ size m = 2%nat
    ∧ m !! "0xaa" = Some (validator 1 "0xAA")
    ∧ m !! "0xbb" = Some (validator 2 "0xBB").
Proof.
  destruct (validator_set_keys () healthy_node no_unicode node 251114 start
              200%Z _ () eq_refl) as (m & Hrun & _ & _ & _ & _ & Hpair).
  destruct (Hpair (validator 1 "0xAA") (validator 2 "0xBB") eq_refl)
    as (Hsize & Haa & Hbb); [vm_compute; discriminate|].
  exists m. eexists. split; [exact Hrun|]. split; [exact Hsize|].
  split; [exact Haa|exact Hbb].
Defined.

Lemma fetch_error_propagated_witness :
  FetchValidators () unavailable_node no_unicode node 251114 start
  = Some ((None, Some (ErrorString "HTTP error response")),
          {| world := (); issued := [validators_request node 251114] |}).
Proof.
  exact (proj1 (fetch_error_propagated () unavailable_node no_unicode node
                  251114 start 503%Z _ _ () eq_refl)).
Defined.

Lemma current_slot_from_sync_status_witness :
  fst <$> CurrentSlot () healthy_node node start = Some (251114%N, None)
  ∧ fst <$> CurrentSlot () unavailable_node node start
    = Some (0%N, Some (ErrorString "HTTP error response")).
Proof.
  split.
  - rewrite (proj1 (current_slot_from_sync_status () healthy_node node start)
               {| HeadSlot := 251114; IsSyncing := false |} _ eq_refl).
    reflexivity.
  - rewrite (proj1 (proj2 (current_slot_from_sync_status () unavailable_node
                             node start)) None _ _ eq_refl).
    reflexivity.
Defined.

(** *** Decoding, case by case *)

(** A slot sent as a JSON number, not as a string, is refused. *)
Example slot_as_number_refused :
  Unmarshal_HeadEventData ("{" +:+ json.quoted "slot" +:+ ":123}") HeadEventData_zero
  = (HeadEventData_zero, Some (InvalidStringTag "uint64")).
Proof. vm_compute. reflexivity. Qed.

(** A slot that is not a decimal number, or does not fit 64 bits, is refused. *)
Example slot_not_decimal_refused :
  (Unmarshal_HeadEventData
     ("{" +:+ json.quoted "slot" +:+ ":" +:+ json.quoted "12a" +:+ "}")
     HeadEventData_zero).2
  = Some (UnmarshalTypeError "number 12a" "uint64")
  ∧ (Unmarshal_HeadEventData
       ("{" +:+ json.quoted "slot" +:+ ":" +:+ json.quoted "18446744073709551616" +:+ "}")
       HeadEventData_zero).2
    = Some (UnmarshalTypeError "number 18446744073709551616" "uint64")
  ∧ (Unmarshal_HeadEventData
       ("{" +:+ json.quoted "slot" +:+ ":" +:+ json.quoted "18446744073709551615" +:+ "}")
       HeadEventData_zero)
    = ({| Slot := 18446744073709551615; Block := ""; State := "" |}, None).
Proof. repeat split; vm_compute; reflexivity. Qed.

(** Input that is not JSON is a syntax error; so is a truncated body. *)
Example not_json_refused :
  (Unmarshal_HeadEventData "<html>502 Bad Gateway</html>" HeadEventData_zero).2
  = Some SyntaxError
  ∧ (Unmarshal_HeadEventData ("{" +:+ json.quoted "slot" +:+ ":") HeadEventData_zero).2
    = Some SyntaxError
  ∧ (Unmarshal_HeadEventData "" HeadEventData_zero).2 = Some SyntaxError.
Proof. repeat split; vm_compute; reflexivity. Qed.

(** Members the struct does not name are skipped, keys match whatever their
    case, white space is free, and a later member overrides an earlier one. *)
Example extra_members_skipped :
  Unmarshal_HeadEventData
    ("{ " +:+ json.quoted "SLOT" +:+ " : " +:+ json.quoted "1" +:+ ", "
     +:+ json.quoted "epoch_transition" +:+ ": false, "
     +:+ json.quoted "peers" +:+ ": [1, {" +:+ json.quoted "a" +:+ ": null}, -2.5e3], "
     +:+ json.quoted "Block" +:+ ": " +:+ json.quoted "0x56" +:+ ", "
     +:+ json.quoted "slot" +:+ ": " +:+ json.quoted "827256" +:+ " }")
    HeadEventData_zero
  = ({| Slot := 827256; Block := "0x56"; State := "" |}, None).
Proof. vm_compute. reflexivity. Qed.

(** Escapes are decoded: [é] is the two bytes of U+00E9, and a lone
    surrogate is U+FFFD. *)
Example escapes_unquoted :
  json.unquote (String (json.byte 92) "u00e9" +:+ String (json.byte 92) "n")
  = Some (String (json.byte 195) (String (json.byte 169) (String (json.byte 10) "")))
  ∧ json.unquote (String (json.byte 92) "ud83d" +:+ String (json.byte 92) "ude00")
    = Some (String (json.byte 240) (String (json.byte 159)
              (String (json.byte 152) (String (json.byte 128) ""))))
  ∧ json.unquote (String (json.byte 92) "ud83d!") = Some (json.replacement +:+ "!").
Proof. repeat split; vm_compute; reflexivity. Qed.

(** The node answers 503: the accessor returns the zero response it
    allocated, and the error. *)
Example response_with_error :
  fst <$> GetGenesis () unavailable_node node start
  = Some (Some {| GenesisTime := 0; GenesisValidatorsRoot := "";
                  GenesisForkVersion := "" |},
          Some (ErrorString "HTTP error response")).
Proof. reflexivity. Qed.

(** * Further properties *)

(** ** Decoding head events, member by member *)

Lemma store_unnamed (d : HeadEventData) (k : string) (v : json.value) :
  names_field k = false → store_HeadEventData d k v = json.Stored d.
Proof.
  unfold names_field, store_HeadEventData. intros H.
  apply orb_false_elim in H as [H Hstate].
  apply orb_false_elim in H as [Hslot Hblock].
  by rewrite Hslot, Hblock, Hstate.
Qed.

Lemma store_members_named (ms : list (string * json.value)) (d : HeadEventData)
    (saved : option error) :
  json.store_members store_HeadEventData ms d saved
  = json.store_members store_HeadEventData
      (filter (λ kv : string * json.value, names_field kv.1) ms) d saved.
Proof.
  revert d saved. induction ms as [|[k v] ms IH]; intros d saved; [done|].
  rewrite filter_cons. case_decide as Hd; cbn [fst] in Hd.
  - cbn [json.store_members].
    destruct (store_HeadEventData d k v); by rewrite ?IH.
  - cbn [json.store_members].
    rewrite store_unnamed, IH; [done|]. by destruct (names_field k).
Qed.

(** X1. Members that name no field of [HeadEventData] are skipped: a body
    decodes as the body that has the members named slot, block and state
    only, in the same order. *)
Theorem unnamed_members_skipped (data data' : string)
    (ms : list (string * json.value)) (dst : HeadEventData) :
  json.parse data = Some (json.Object ms) →
  json.parse data'
  = Some (json.Object (filter (λ kv : string * json.value, names_field kv.1) ms)) →
  Unmarshal_HeadEventData data dst = Unmarshal_HeadEventData data' dst.
Proof.
  intros H H'. unfold Unmarshal_HeadEventData, json.Unmarshal.
  rewrite H, H'. apply store_members_named.
Qed.

Lemma unnamed_members_skipped_witness :
  Unmarshal_HeadEventData documented_head_event HeadEventData_zero
  = Unmarshal_HeadEventData
      (head_event_body 827256
         "0x56b683afa68170c775f3c9debc18a6a72caea9055584d037333a6fe43c8ceb83"
         "0x419e2965320d69c4213782dae73941de802a4f436408fddd6f68b671b3ff4e55")
      HeadEventData_zero.
Proof.
  eapply unnamed_members_skipped; vm_compute; reflexivity.
Defined.

(** The documented event decodes to its slot and roots. *)
Example documented_head_event_decoded :
  Unmarshal_HeadEventData documented_head_event HeadEventData_zero
  = ({| Slot := 827256;
        Block := "0x56b683afa68170c775f3c9debc18a6a72caea9055584d037333a6fe43c8ceb83";
        State := "0x419e2965320d69c4213782dae73941de802a4f436408fddd6f68b671b3ff4e55" |},
     None).
Proof. vm_compute. reflexivity. Qed.

(** What [store_uint64_quoted] stores is what was there, or what
    [strconv.ParseUint] read. *)
Lemma store_uint64_quoted_stored (v : json.value) (cur n : N) :
  json.store_uint64_quoted v cur = json.Stored n →
  n = cur ∨ ∃ item, v = json.Str item ∧ strconv.ParseUint item = Some n.
Proof.
  unfold json.store_uint64_quoted. intros H.
  destruct v as [| | |item| |]; try discriminate; [left; by simplify_eq|].
  destruct item as [|c item]; [discriminate|].
  repeat case_match; simplify_eq; eauto.
Qed.

Lemma ParseUint_bound (s : string) (n : N) :
  strconv.ParseUint s = Some n → (n <= strconv.maxUint64)%N.
Proof.
  unfold strconv.ParseUint. intros H.
  destruct (NilZero.uint_of_string s) as [d|]; [|discriminate].
  destruct (N.of_uint d <=? strconv.maxUint64)%N eqn:Hle; [|discriminate].
  simplify_eq. by apply N.leb_le.
Qed.

Lemma store_HeadEventData_bound (d d' : HeadEventData) (k : string)
    (v : json.value) :
  store_HeadEventData d k v = json.Stored d' →
  (Slot d <= strconv.maxUint64)%N → (Slot d' <= strconv.maxUint64)%N.
Proof.
  unfold store_HeadEventData. intros H Hd.
  destruct (json.selects "slot" k).
  { destruct (json.store_uint64_quoted v (Slot d)) as [n| |] eqn:Hs;
      cbn in H; simplify_eq. cbn.
    apply store_uint64_quoted_stored in Hs as [->|(item & _ & Hp)]; [done|].
    by eapply ParseUint_bound. }
  destruct (json.selects "block" k).
  { destruct (json.store_string v (Block d)); cbn in H; by simplify_eq. }
  destruct (json.selects "state" k).
  { destruct (json.store_string v (State d)); cbn in H; by simplify_eq. }
  by simplify_eq.
Qed.

Lemma store_members_bound (ms : list (string * json.value)) (d : HeadEventData)
    (saved : option error) :
  (Slot d <= strconv.maxUint64)%N →
  (Slot (json.store_members store_HeadEventData ms d saved).1
   <= strconv.maxUint64)%N.
Proof.
  revert d saved. induction ms as [|[k v] ms IH]; intros d saved Hd; [done|].
  cbn [json.store_members].
  destruct (store_HeadEventData d k v) as [d'| |] eqn:Hs; [|by apply IH|done].
  apply IH. by eapply store_HeadEventData_bound.
Qed.

Lemma Unmarshal_HeadEventData_bound (data : string) (dst : HeadEventData) :
  (Slot dst <= strconv.maxUint64)%N →
  (Slot (Unmarshal_HeadEventData data dst).1 <= strconv.maxUint64)%N.
Proof.
  intros Hd. unfold Unmarshal_HeadEventData, json.Unmarshal.
  destruct (json.parse data) as [[| | | | |ms]|]; try done.
  by apply store_members_bound.
Qed.

(** X2. The slot of every event delivered on [slotC] fits 64 bits: the
    unbounded number of the model never leaves the range of the [uint64] of
    the code. *)
Theorem delivered_slots_fit_uint64 (c : ProdBeaconInstance)
    (upstream : list session) :
  Forall (λ d, (Slot d <= strconv.maxUint64)%N)
         (sent (SubscribeToHeadEvents c upstream).1).
Proof.
  rewrite SubscribeToHeadEvents_trace. cbn [fst].
  change (sent (LogInfo ?m :: ?t)) with (sent t). rewrite sent_rounds.
  apply Forall_forall. intros d Hd.
  apply list_elem_of_omap in Hd as (msg & _ & Hmsg).
  unfold decoded in Hmsg.
  pose proof (Unmarshal_HeadEventData_bound (Data msg) HeadEventData_zero) as Hb.
  destruct (Unmarshal_HeadEventData (Data msg) HeadEventData_zero) as [d' [e|]];
    simplify_eq.
  apply Hb. done.
Qed.

(** ** The slot must be a decimal string *)


Lemma store_uint64_quoted_accepted (v : json.value) (cur : N) :
  slot_acceptable v = true →
  ∃ n, json.store_uint64_quoted v cur = json.Stored n.
Proof.
  unfold slot_acceptable. intros H.
  destruct v as [| | |item| |]; try discriminate; [by eexists|].
  destruct (strconv.ParseUint item) as [n|] eqn:Hp.
  { exists n. by apply store_uint64_quoted_parsed. }
  rewrite orb_false_r in H. apply bool_decide_eq_true in H as ->.
  by eexists.
Qed.





(** ** Every event is accounted for *)

Lemma unmarshal_failures_app (t1 t2 : list action) :
  unmarshal_failures (t1 ++ t2) = unmarshal_failures t1 ++ unmarshal_failures t2.
Proof. apply omap_app. Qed.

Lemma unmarshal_failures_reconnect (err : option error) :
  unmarshal_failures (reconnect err) = [].
Proof. by destruct err. Qed.

(** The decoding error of an event, if it has one. *)
Lemma unmarshal_failures_handler (evs : list Event) :
  unmarshal_failures (flat_map handler evs)
  = omap (λ msg, (Unmarshal_HeadEventData (Data msg) HeadEventData_zero).2) evs.
Proof.
  induction evs as [|msg evs IH]; [done|].
  cbn [flat_map omap list_omap]. rewrite unmarshal_failures_app, IH.
  unfold handler.
  by destruct (Unmarshal_HeadEventData (Data msg) HeadEventData_zero) as [d [e|]].
Qed.

Lemma unmarshal_failures_rounds (c : ProdBeaconInstance) (upstream : list session) :
  unmarshal_failures (rounds c upstream)
  = omap (λ msg, (Unmarshal_HeadEventData (Data msg) HeadEventData_zero).2)
      (concat (events <$> upstream)).
Proof.
  induction upstream as [|s rest IH]; [done|].
  rewrite rounds_cons, round_trace, unmarshal_failures_app.
  change (unmarshal_failures (Subscribe ?u :: ?t)) with (unmarshal_failures t).
  rewrite unmarshal_failures_app, unmarshal_failures_handler,
    unmarshal_failures_reconnect, IH, app_nil_r.
  cbn [fmap list_fmap concat]. by rewrite omap_app.
Qed.

Lemma sent_or_failed (evs : list Event) :
  (length (omap decoded evs)
   + length (omap (λ msg, (Unmarshal_HeadEventData (Data msg) HeadEventData_zero).2) evs)
   = length evs)%nat.
Proof.
  induction evs as [|msg evs IH]; [done|].
  cbn [omap list_omap length]. unfold decoded at 1.
  destruct (Unmarshal_HeadEventData (Data msg) HeadEventData_zero) as [d [e|]];
    cbn [snd length]; lia.
Qed.

(** X4. No event is lost without a trace.  Of the events the upstream
    emitted, each one was either sent on [slotC] or logged with its decoding
    error: the sends and the decoding errors logged add up to the events
    received, and the errors are logged in the order the bad events came. *)
Theorem every_event_sent_or_logged (c : ProdBeaconInstance)
    (upstream : list session) :
  (length (sent (SubscribeToHeadEvents c upstream).1)
   + length (unmarshal_failures (SubscribeToHeadEvents c upstream).1)
   = length (concat (events <$> upstream)))%nat
  ∧ unmarshal_failures (SubscribeToHeadEvents c upstream).1
    = omap (λ msg, (Unmarshal_HeadEventData (Data msg) HeadEventData_zero).2)
        (concat (events <$> upstream)).
Proof.
  rewrite SubscribeToHeadEvents_trace. cbn [fst].
  change (sent (LogInfo ?m :: ?t)) with (sent t).
  change (unmarshal_failures (LogInfo ?m :: ?t)) with (unmarshal_failures t).
  rewrite sent_rounds, unmarshal_failures_rounds.
  split; [apply sent_or_failed|done].
Qed.

(** ** The accessors, request by request *)

Section accessor_requests.

Context {ExecutionPayload : Type} (zero : ExecutionPayload).
Context {Withdrawal World : Type}.
Context (serve : request → ∀ t : response,
           dst ExecutionPayload Withdrawal t → World
           → (Z * dst ExecutionPayload Withdrawal t * option error) * World).
Context (unicode_lower : string → string).

(** A verb at the end of the format leaves an empty remainder. *)
Lemma url_with_argument (endpoint path s : string) :
  endpoint +:+ path +:+ (s +:+ "") = endpoint +:+ path +:+ s.
Proof. by rewrite append_nil_r. Qed.

Ltac one_request_accessor :=
  unfold one_request; cbv zeta;
  lazymatch goal with
  | |- context [{| req_method := _; req_url := ?url |}] =>
      lazymatch goal with
      | |- context [?m ?σ = Some _] =>
          let m' := eval hnf in m in
          change (m σ) with (m' σ)
      end;
      unfold bind, fetchBeacon, MethodGet;
      lazymatch goal with
      | |- context [Sprintf ?f ?a] =>
          replace (Sprintf f a) with url
            by first
                 [ reflexivity
                 | lazymatch url with
                   | String.append ?e (String.append ?p ?x) =>
                       exact (eq_sym (url_with_argument e p x))
                   end ]
      end
  end;
  destruct (serve _ _ _ _) as [[[? ?] ?] ?]; reflexivity.

(** X5. Each of these accessors is one GET and nothing else: of the URL
    that its endpoint and its argument make, the number in decimal, with a
    fresh zero destination; and it returns the destination and the error as
    the fetch left them, looking at neither. *)
Theorem accessor_requests (c : ProdBeaconInstance) (σ : state World)
    (epoch slot : N) (blockID : string) :
  one_request zero serve TProposerDutiesResponse
    (beaconURI c +:+ "/eth/v1/validator/duties/proposer/" +:+ strconv.FormatUint epoch)
    (GetProposerDuties zero serve c epoch) σ
  ∧ one_request zero serve TGetHeaderResponse
      (beaconURI c +:+ "/eth/v1/beacon/headers/head")
      (GetHeader zero serve c) σ
  ∧ one_request zero serve TGetHeaderResponse
      (beaconURI c +:+ "/eth/v1/beacon/headers/" +:+ strconv.FormatUint slot)
      (GetHeaderForSlot zero serve c slot) σ
  ∧ one_request zero serve TGetBlockResponse
      (beaconURI c +:+ "/eth/v2/beacon/blocks/" +:+ blockID)
      (GetBlock zero serve c blockID) σ
  ∧ one_request zero serve TGetBlockResponse
      (beaconURI c +:+ "/eth/v2/beacon/blocks/" +:+ strconv.FormatUint slot)
      (GetBlockForSlot zero serve c slot) σ
  ∧ one_request zero serve TGetGenesisResponse
      (beaconURI c +:+ "/eth/v1/beacon/genesis")
      (GetGenesis zero serve c) σ
  ∧ one_request zero serve TGetSpecResponse
      (beaconURI c +:+ "/eth/v1/config/spec")
      (GetSpec zero serve c) σ
  ∧ one_request zero serve TGetForkScheduleResponse
      (beaconURI c +:+ "/eth/v1/config/fork_schedule")
      (GetForkSchedule zero serve c) σ
  ∧ one_request zero serve TGetRandaoResponse
      (beaconURI c +:+ "/eth/v1/beacon/states/" +:+ strconv.FormatUint slot +:+ "/randao")
      (GetRandao zero serve c slot) σ
  ∧ one_request zero serve TGetWithdrawalsResponse
      (beaconURI c +:+ "/eth/v1/beacon/states/" +:+ strconv.FormatUint slot
       +:+ "/withdrawals")
      (GetWithdrawals zero serve c slot) σ.
Proof.
  repeat split; one_request_accessor.
Qed.

(** X6. A block by slot is the block whose identifier is the slot in
    decimal: [GetBlockForSlot] does what [GetBlock] does on that
    identifier, request and results alike. *)
Theorem GetBlockForSlot_as_GetBlock (c : ProdBeaconInstance) (slot : N)
    (σ : state World) :
  GetBlockForSlot zero serve c slot σ
  = GetBlock zero serve c (strconv.FormatUint slot) σ.
Proof.
  unfold GetBlockForSlot, GetBlock.
  change (Sprintf "%s/eth/v2/beacon/blocks/%d" [ArgString (beaconURI c); ArgUint slot])
    with (beaconURI c +:+ "/eth/v2/beacon/blocks/" +:+ (strconv.FormatUint slot +:+ "")).
  change (Sprintf "%s/eth/v2/beacon/blocks/%s"
            [ArgString (beaconURI c); ArgString (strconv.FormatUint slot)])
    with (beaconURI c +:+ "/eth/v2/beacon/blocks/" +:+ (strconv.FormatUint slot +:+ "")).
  reflexivity.
Qed.

(** X7. [CurrentSlot] costs one GET of the syncing endpoint, and when the
    fetch returns no error it returns the head slot the node reported,
    whatever the status code and whether or not the node says it is still
    syncing. *)
Theorem CurrentSlot_of_syncing_node (c : ProdBeaconInstance) (σ : state World)
    (code : Z) (resp : SyncStatusPayload) (w : World) :
  serve {| req_method := "GET"; req_url := beaconURI c +:+ "/eth/v1/node/syncing" |}
    TSyncStatusPayload (new zero TSyncStatusPayload) (world σ)
  = ((code, resp, None), w) →
  CurrentSlot zero serve c σ
  = Some ((HeadSlot (SyncStatus_Data resp), None),
          {| world := w;
             issued := issued σ
                       ++ [{| req_method := "GET";
                              req_url := beaconURI c +:+ "/eth/v1/node/syncing" |}] |}).
Proof.
  intros H. unfold CurrentSlot, SyncStatus, bind, fetchBeacon, MethodGet.
  by rewrite H.
Qed.

Lemma length_remove_dups_le (l : list string) :
  (length (remove_dups l) ≤ length l)%nat.
Proof.
  induction l as [|x l IH]; [done|]. cbn.
  destruct (decide_rel elem_of x l); cbn; lia.
Qed.

Lemma remove_dups_NoDup (l : list string) : NoDup l → remove_dups l = l.
Proof.
  induction 1 as [|x l Hx Hl IH]; [done|]. cbn.
  destruct (decide_rel elem_of x l); [done|]. by rewrite IH.
Qed.

(** X8. The validator set holds the entries of the response and nothing
    else: every binding is an entry of the response under the key of its
    pubkey, and every entry of the response has its key bound.  The set is
    no larger than the response; when the keys of the entries are all
    different it has one binding per entry, each key bound to its own
    entry, whatever the status of the entry. *)
Theorem validator_set_sound_and_complete (c : ProdBeaconInstance) (headSlot : N)
    (σ : state World) (code : Z) (vd : AllValidatorsResponse) (w : World) :
  serve (validators_request c headSlot) TAllValidatorsResponse
    (new zero TAllValidatorsResponse) (world σ) = ((code, vd, None), w) →
  ∃ m : gmap string ValidatorResponseEntry,
    FetchValidators zero serve unicode_lower c headSlot σ
    = Some ((Some m, None),
            {| world := w; issued := issued σ ++ [validators_request c headSlot] |})
    ∧ (∀ k vs, m !! k = Some vs →
               vs ∈ AllValidators_Data vd ∧ validator_key unicode_lower vs = k)
    ∧ (∀ vs, vs ∈ AllValidators_Data vd →
             is_Some (m !! validator_key unicode_lower vs))
    ∧ (size m ≤ length (AllValidators_Data vd))%nat
    ∧ (NoDup (validator_key unicode_lower <$> AllValidators_Data vd) →
       size m = length (AllValidators_Data vd)
       ∧ ∀ vs, vs ∈ AllValidators_Data vd →
               m !! validator_key unicode_lower vs = Some vs).
Proof.
  intros H. exists (collect unicode_lower (AllValidators_Data vd) ∅).
  split; [exact (FetchValidators_run zero serve unicode_lower c headSlot σ code vd None w H)|].
  assert (Hlast : ∀ k, collect unicode_lower (AllValidators_Data vd) ∅ !! k
                       = last (filter (λ vs, validator_key unicode_lower vs = k)
                                 (AllValidators_Data vd))).
  { intros k. rewrite collect_lookup, lookup_empty. by destruct (last _). }
  assert (Hsize : size (collect unicode_lower (AllValidators_Data vd) ∅)
                  = length (remove_dups
                              (validator_key unicode_lower <$> AllValidators_Data vd)))
    by apply collect_size.
  split; [|split; [|split]].
  - intros k vs Hk. rewrite Hlast in Hk.
    apply last_Some_elem_of, list_elem_of_filter in Hk. naive_solver.
  - intros vs Hvs. rewrite Hlast.
    destruct (last _) eqn:Hl; [by eexists|].
    apply last_None in Hl.
    assert (vs ∈ filter (λ vs', validator_key unicode_lower vs'
                                = validator_key unicode_lower vs)
                   (AllValidators_Data vd)) as Hin
      by (by apply list_elem_of_filter).
    rewrite Hl in Hin. by apply not_elem_of_nil in Hin.
  - rewrite Hsize. etrans; [apply length_remove_dups_le|]. by rewrite length_fmap.
  - intros Hnd. split.
    + rewrite Hsize, (remove_dups_NoDup _ Hnd). apply length_fmap.
    + intros vs Hvs. rewrite Hlast.
      clear Hlast Hsize H. induction (AllValidators_Data vd) as [|x l IH]; [by apply not_elem_of_nil in Hvs|].
      rewrite fmap_cons in Hnd. apply NoDup_cons in Hnd as [Hx Hnd].
      rewrite filter_cons. apply elem_of_cons in Hvs as [->|Hvs].
      * rewrite decide_True by done. rewrite last_cons.
        destruct (last _) as [y|] eqn:Hl; [|done].
        apply last_Some_elem_of, list_elem_of_filter in Hl as [Hk Hy].
        exfalso. apply Hx. rewrite <- Hk. by apply list_elem_of_fmap_2.
      * case_decide as Hk.
        -- exfalso. apply Hx. rewrite Hk. by apply list_elem_of_fmap_2.
        -- by apply IH.
Qed.

(** X9. Pubkeys that differ in the case of their letters only are one key.
    Of two such entries the set keeps the later one alone: the earlier
    validator is not in the set under any key. *)
Theorem pubkey_case_collision (c : ProdBeaconInstance) (headSlot : N)
    (σ : state World) (code : Z) (e1 e2 : ValidatorResponseEntry) (w : World) :
  serve (validators_request c headSlot) TAllValidatorsResponse
    (new zero TAllValidatorsResponse) (world σ)
  = ((code, {| AllValidators_Data := [e1; e2] |}, None), w) →
  all_ascii (Pubkey (Validator e1)) = true →
  all_ascii (Pubkey (Validator e2)) = true →
  map_bytes json.lower (Pubkey (Validator e1))
  = map_bytes json.lower (Pubkey (Validator e2)) →
  FetchValidators zero serve unicode_lower c headSlot σ
  = Some ((Some {[ map_bytes json.lower (Pubkey (Validator e2)) := e2 ]}, None),
          {| world := w; issued := issued σ ++ [validators_request c headSlot] |}).
Proof.
  intros H H1 H2 Heq.
  rewrite (FetchValidators_run zero serve unicode_lower c headSlot σ code _ None w H).
  do 3 f_equal. unfold collect. cbn [AllValidators_Data foldl].
  unfold validator_key, NewPubkeyHex, ToLower. rewrite H1, H2, Heq.
  by rewrite insert_insert_eq, insert_empty.
Qed.

End accessor_requests.

Lemma CurrentSlot_of_syncing_node_witness :
  CurrentSlot () syncing_node node start
  = Some ((1000%N, None),
          {| world := ();
             issued := [{| req_method := "GET";
                           req_url := "http://localhost:3500/eth/v1/node/syncing" |}] |}).
Proof.
  exact (CurrentSlot_of_syncing_node () syncing_node node start 206%Z
           {| SyncStatus_Data := {| HeadSlot := 1000; IsSyncing := true |} |} ()
           eq_refl).
Defined.

Lemma validator_set_sound_and_complete_witness :
  ∃ m, fst <$> FetchValidators () healthy_node no_unicode node 251114 start
       = Some (Some m, None)
       ∧ size m = 2%nat
       ∧ m !! "0xbb" = Some (validator 2 "0xBB").
Proof.
  destruct (validator_set_sound_and_complete () healthy_node no_unicode node
              251114 start 200%Z _ () eq_refl)
    as (m & Hrun & _ & _ & _ & Hdistinct).
  destruct Hdistinct as [Hsize Hall]; [vm_compute; repeat constructor; set_solver|].
  exists m. rewrite Hrun. split; [done|]. split; [exact Hsize|].
  apply (Hall (validator 2 "0xBB")). repeat constructor.
Defined.

Lemma pubkey_case_collision_witness :
  fst <$> FetchValidators () shouting_node no_unicode node 251114 start
  = Some (Some {[ "0xab" := validator 2 "0xab" ]}, None).
Proof.
  rewrite (pubkey_case_collision () shouting_node no_unicode node 251114 start
             200%Z (validator 1 "0xAB") (validator 2 "0xab") ()
             eq_refl eq_refl eq_refl eq_refl).
  reflexivity.
Defined.

(** ** The database entities *)

Section database_properties.

Import database.

Context {Time : Type} (Time_zero : Time) (UTC_String : Time → string).
Context {PublicKey Address Signature : Type}.
Context (HexToPubkey : string → PublicKey * option error).
Context (HexToAddress : string → Address * option error).
Context (HexToSignature : string → Signature * option error).
Context (PublicKey_String : PublicKey → string).
Context (Address_String : Address → string).
Context (Signature_String : Signature → string).

(** X10. A registration survives the database.  When the hex strings of
    its key, fee recipient and signature parse back to them, the entry made
    of a registration converts back to that registration; the entry has the
    zero id and the zero insertion time, which the database assigns. *)
Theorem registration_round_trip
    (valReg : SignedValidatorRegistration (PublicKey := PublicKey))
    (message : RegisterValidatorRequestMessage) :
  Message valReg = Some message →
  HexToPubkey (PublicKey_String (Message_Pubkey message))
  = (Message_Pubkey message, None) →
  HexToAddress (Address_String (Message_FeeRecipient message))
  = (Message_FeeRecipient message, None) →
  HexToSignature (Signature_String (Registration_Signature valReg))
  = (Registration_Signature valReg, None) →
  ∃ entry : ValidatorRegistrationEntry,
    SignedValidatorRegistrationToEntry Time_zero PublicKey_String Address_String
      Signature_String valReg = Some entry
    ∧ ID entry = 0%Z ∧ InsertedAt entry = Time_zero
    ∧ ToSignedValidatorRegistration HexToPubkey HexToAddress HexToSignature entry
      = (Some valReg, None).
Proof.
  intros Hm Hp Ha Hs. destruct valReg as [m sig]. cbn in Hm, Hs. subst m.
  destruct message as [fee gas ts pk]. cbn in Hp, Ha.
  eexists. split; [reflexivity|]. split; [reflexivity|]. split; [reflexivity|].
  unfold ToSignedValidatorRegistration. cbn. by rewrite Hp, Ha, Hs.
Qed.

(** X11. [ToSignedValidatorRegistration] returns a registration or an
    error, never both and never neither.  The key is parsed first, then the
    fee recipient, then the signature, and the error of the first that fails
    is returned, with a nil registration.  When all three parse, the
    registration carries them and the timestamp and gas limit of the entry.
    The id and the insertion time of the entry play no part. *)
Theorem registration_of_entry (reg : ValidatorRegistrationEntry (Time := Time)) :
  match (HexToPubkey (Pubkey reg)).2,
        (HexToAddress (FeeRecipient reg)).2,
        (HexToSignature (Signature_ reg)).2 with
  | Some e, _, _ | None, Some e, _ | None, None, Some e =>
      ToSignedValidatorRegistration HexToPubkey HexToAddress HexToSignature reg
      = (None, Some e)
  | None, None, None =>
      ToSignedValidatorRegistration HexToPubkey HexToAddress HexToSignature reg
      = (Some {| Message :=
                   Some {| Message_Pubkey := (HexToPubkey (Pubkey reg)).1;
                           Message_FeeRecipient := (HexToAddress (FeeRecipient reg)).1;
                           Message_Timestamp := Timestamp reg;
                           Message_GasLimit := GasLimit reg |};
                 Registration_Signature := (HexToSignature (Signature_ reg)).1 |},
         None)
  end
  ∧ ∀ (id : Z) (t : Time),
      ToSignedValidatorRegistration HexToPubkey HexToAddress HexToSignature
        {| ID := id; InsertedAt := t; Pubkey := Pubkey reg;
           FeeRecipient := FeeRecipient reg; Timestamp := Timestamp reg;
           GasLimit := GasLimit reg; Signature_ := Signature_ reg |}
      = ToSignedValidatorRegistration HexToPubkey HexToAddress HexToSignature reg.
Proof.
  split; [|done].
  unfold ToSignedValidatorRegistration.
  destruct (HexToPubkey (Pubkey reg)) as [pk [e|]]; [done|].
  destruct (HexToAddress (FeeRecipient reg)) as [fee [e|]]; [done|].
  by destruct (HexToSignature (Signature_ reg)) as [sig [e|]].
Qed.

Lemma string_of_uint_head (d : Decimal.uint) :
  d ≠ Decimal.Nil →
  ∃ c r, NilZero.string_of_uint d = String c r ∧ json.is_digit c = true.
Proof.
  intros Hd. destruct d; [done|..]; cbn; eauto.
Qed.

Lemma ParseInt_FormatInt (i : Z) :
  (minInt64 <= i <= maxInt64)%Z → ParseInt (FormatInt i) = Some i.
Proof.
  intros Hi. unfold FormatInt.
  assert (Hrange : ((minInt64 <=? i) && (i <=? maxInt64))%Z = true).
  { apply andb_true_intro. split; apply Z.leb_le; lia. }
  destruct i as [|p|p].
  - reflexivity.
  - cbn [Z.to_int NilZero.string_of_int].
    pose proof (DecimalPos.Unsigned.to_uint_nonnil p) as Hnil.
    destruct (string_of_uint_head _ Hnil) as (c & r & Hs & Hc).
    unfold ParseInt. rewrite Hs.
    assert (∀ x : ascii, json.code c ≠ json.code x → bool_decide (c = x) = false) as Hne.
    { intros x Hx. apply bool_decide_eq_false. by intros ->. }
    unfold json.is_digit, json.between in Hc.
    apply andb_prop in Hc as [?%N.leb_le ?%N.leb_le].
    rewrite (Hne "-"%char), (Hne "+"%char) by (cbn; lia).
    rewrite <- Hs, NilZero.usu by done.
    change (N.of_uint (Pos.to_uint p)) with (Pos.of_uint (Pos.to_uint p)).
    rewrite DecimalPos.Unsigned.of_to. cbn [Z.of_N]. by rewrite Hrange.
  - cbn [Z.to_int NilZero.string_of_int].
    pose proof (DecimalPos.Unsigned.to_uint_nonnil p) as Hnil.
    unfold ParseInt. rewrite bool_decide_eq_true_2 by done.
    rewrite NilZero.usu by done.
    change (N.of_uint (Pos.to_uint p)) with (Pos.of_uint (Pos.to_uint p)).
    rewrite DecimalPos.Unsigned.of_to. cbn [Z.of_N].
    change (- Z.pos p)%Z with (Z.neg p). by rewrite Hrange.
Qed.

(** X12. A CSV record lines up with the CSV header: it has as many fields
    as the header has columns, and under each column stands the field of
    that name.  The id and the slot are written in decimal, so that
    [strconv.ParseInt] and [strconv.ParseUint] read them back. *)
Theorem csv_record_matches_header (e : ExecutionPayloadEntry (Time := Time)) :
  (minInt64 <= Entry_ID e <= maxInt64)%Z →
  (Entry_Slot e <= strconv.maxUint64)%N →
  ∃ record,
    ToCSVRecord UTC_String (Some e) = Some record
    ∧ length record = length ExecutionPayloadEntryCSVHeader
    ∧ column "id" record ≫= ParseInt = Some (Entry_ID e)
    ∧ column "inserted_at" record = Some (UTC_String (Entry_InsertedAt e))
    ∧ column "slot" record ≫= strconv.ParseUint = Some (Entry_Slot e)
    ∧ column "proposer_pubkey" record = Some (ProposerPubkey e)
    ∧ column "block_hash" record = Some (BlockHash e)
    ∧ column "version" record = Some (Version e)
    ∧ column "payload" record = Some (Payload e).
Proof.
  intros Hid Hslot. eexists. split; [reflexivity|].
  split; [reflexivity|].
  split; [exact (ParseInt_FormatInt _ Hid)|].
  split; [reflexivity|].
  split; [exact (ParseUint_FormatUint _ Hslot)|].
  repeat split.
Qed.

(** X13. What [ToSignedValidatorRegistration] returns can always be stored
    again: its message is never nil, so [SignedValidatorRegistrationToEntry]
    does not panic on it, and the entry it makes has the timestamp and the
    gas limit of the entry converted, and the hex strings of what its key,
    fee recipient and signature were parsed to. *)
Theorem registration_can_be_stored_again
    (reg : ValidatorRegistrationEntry (Time := Time))
    (valReg : SignedValidatorRegistration (PublicKey := PublicKey))
    (err : option error) :
  ToSignedValidatorRegistration HexToPubkey HexToAddress HexToSignature reg
  = (Some valReg, err) →
  err = None
  ∧ ∃ entry : ValidatorRegistrationEntry,
      SignedValidatorRegistrationToEntry Time_zero PublicKey_String Address_String
        Signature_String valReg = Some entry
      ∧ Timestamp entry = Timestamp reg
      ∧ GasLimit entry = GasLimit reg
      ∧ Pubkey entry = PublicKey_String (HexToPubkey (Pubkey reg)).1
      ∧ FeeRecipient entry = Address_String (HexToAddress (FeeRecipient reg)).1
      ∧ Signature_ entry = Signature_String (HexToSignature (Signature_ reg)).1.
Proof.
  unfold ToSignedValidatorRegistration. intros H.
  destruct (HexToPubkey (Pubkey reg)) as [pk [e|]]; [done|].
  destruct (HexToAddress (FeeRecipient reg)) as [fee [e|]]; [done|].
  destruct (HexToSignature (Signature_ reg)) as [sig [e|]]; [done|].
  simplify_eq. split; [done|]. eexists. split; [reflexivity|]. done.
Qed.

End database_properties.

Lemma registration_round_trip_witness :
  ∃ entry : database.ValidatorRegistrationEntry (Time := unit),
    database.SignedValidatorRegistrationToEntry () database.with_prefix
      database.with_prefix database.with_prefix
      {| database.Message :=
           Some {| database.Message_FeeRecipient := "abcf8e0d4e9587369b2301d0790347320302cc09";
                   database.Message_GasLimit := 30000000;
                   database.Message_Timestamp := 1606824023;
                   database.Message_Pubkey := "93247f2209abcacf57b75a51dafae777f9dd38bc" |};
         database.Registration_Signature := "1b66ac1fb663c9bc59509846d6ec05345bd908ed" |}
    = Some entry
    ∧ database.ID entry = 0%Z
    ∧ database.InsertedAt entry = ()
    ∧ database.ToSignedValidatorRegistration database.from_hex database.from_hex
        database.from_hex entry
      = (Some {| database.Message :=
                   Some {| database.Message_FeeRecipient := "abcf8e0d4e9587369b2301d0790347320302cc09";
                           database.Message_GasLimit := 30000000;
                           database.Message_Timestamp := 1606824023;
                           database.Message_Pubkey := "93247f2209abcacf57b75a51dafae777f9dd38bc" |};
                 database.Registration_Signature := "1b66ac1fb663c9bc59509846d6ec05345bd908ed" |},
         None).
Proof.
  eapply (registration_round_trip () database.from_hex database.from_hex
            database.from_hex database.with_prefix database.with_prefix
            database.with_prefix); reflexivity.
Defined.

(** A key without the prefix is refused, and its error hides that the
    signature is bad too. *)
Example registration_with_bad_key :
  database.ToSignedValidatorRegistration database.from_hex database.from_hex
    database.from_hex
    {| database.ID := 7; database.InsertedAt := ();
       database.Pubkey := "93247f22"; database.FeeRecipient := "0xabcf8e0d";
       database.Timestamp := 1606824023; database.GasLimit := 30000000;
       database.Signature_ := "" |}
  = (None, Some (ErrorString "hex string without 0x prefix")).
Proof. reflexivity. Qed.

Lemma csv_record_matches_header_witness :
  ∃ record,
    database.ToCSVRecord (λ _ : unit, "2023-04-12 22:27:35 +0000 UTC")
      (Some {| database.Entry_ID := 42; database.Entry_InsertedAt := ();
               database.Entry_Slot := 827256;
               database.ProposerPubkey := "0x93247f22";
               database.BlockHash := "0x56b683af";
               database.Version := "capella";
               database.Payload := "{}" |})
    = Some record
    ∧ length record = length database.ExecutionPayloadEntryCSVHeader
    ∧ database.column "id" record ≫= ParseInt = Some 42%Z
    ∧ database.column "inserted_at" record = Some "2023-04-12 22:27:35 +0000 UTC"
    ∧ database.column "slot" record ≫= strconv.ParseUint = Some 827256%N
    ∧ database.column "proposer_pubkey" record = Some "0x93247f22"
    ∧ database.column "block_hash" record = Some "0x56b683af"
    ∧ database.column "version" record = Some "capella"
    ∧ database.column "payload" record = Some "{}".
Proof.
  apply (csv_record_matches_header (λ _ : unit, "2023-04-12 22:27:35 +0000 UTC")
           {| database.Entry_ID := 42; database.Entry_InsertedAt := ();
              database.Entry_Slot := 827256;
              database.ProposerPubkey := "0x93247f22";
              database.BlockHash := "0x56b683af";
              database.Version := "capella";
              database.Payload := "{}" |}).
  - vm_compute. split; discriminate.
  - vm_compute. discriminate.
Defined.

Lemma registration_can_be_stored_again_witness :
  ∃ entry : database.ValidatorRegistrationEntry (Time := unit),
    database.SignedValidatorRegistrationToEntry () database.with_prefix
      database.with_prefix database.with_prefix
      {| database.Message :=
           Some {| database.Message_FeeRecipient := "abcf8e0d";
                   database.Message_GasLimit := 30000000;
                   database.Message_Timestamp := 1606824023;
                   database.Message_Pubkey := "93247f22" |};
         database.Registration_Signature := "1b66ac1f" |}
    = Some entry
    ∧ database.Timestamp entry = 1606824023%N
    ∧ database.GasLimit entry = 30000000%N
    ∧ database.Pubkey entry = "0x93247f22"
    ∧ database.FeeRecipient entry = "0xabcf8e0d"
    ∧ database.Signature_ entry = "0x1b66ac1f".
Proof.
  exact (proj2 (registration_can_be_stored_again () database.from_hex
                  database.from_hex database.from_hex database.with_prefix
                  database.with_prefix database.with_prefix
                  {| database.ID := 7; database.InsertedAt := ();
                     database.Pubkey := "0x93247f22";
                     database.FeeRecipient := "0xabcf8e0d";
                     database.Timestamp := 1606824023;
                     database.GasLimit := 30000000;
                     database.Signature_ := "0x1b66ac1f" |}
                  _ None eq_refl)).
Defined.
